(** * readeckbot: a Telegram front end for a Readeck instance

    Shallow embedding of [bot.py] and the properties its design document
    states about it.

    Conventions of the embedding.
    - A Python [str] is a [string]; a character is a 7-bit ASCII code, and
      the character classes below are Python's on that range.
    - A Python [int] is a [Z]; [len] and slice bounds are [nat].
    - A Python [dict] keyed by strings is the list of its items in the
      order in which their keys were first inserted, which is the order in
      which [json.dumps] writes them.
    - A handler is a computation in the monad [M]: it threads the process
      state (the token table and the JSON file behind it) and the outside
      world, emits the calls it makes to the outside (replies, subprocesses,
      HTTP requests, file writes) in order, and ends normally or with an
      exception.
    - The outside decides what a subprocess, an HTTP request and a write
      of the file answer; each of them can raise.
    - [logger] calls change neither the state nor the emitted calls and are
      left out. *)

From Stdlib Require Import String Ascii List ZArith Lia DecimalString.
From Stdlib Require DecimalPos DecimalZ.
From stdpp Require Import base strings list.

Local Open Scope string_scope.
Local Open Scope list_scope.

(** ** Python strings *)

(** [c.isspace()], the class behind [\s] and [str.strip()]. *)
Definition is_space (c : ascii) : bool :=
  let n := nat_of_ascii c in
  ((9 <=? n)%nat && (n <=? 13)%nat) || ((28 <=? n)%nat && (n <=? 32)%nat).

(** The class behind [\w]: letters, digits and the underscore. *)
Definition is_word (c : ascii) : bool :=
  let n := nat_of_ascii c in
  ((48 <=? n)%nat && (n <=? 57)%nat)
  || ((65 <=? n)%nat && (n <=? 90)%nat)
  || (n =? 95)%nat
  || ((97 <=? n)%nat && (n <=? 122)%nat).

Fixpoint lstrip (s : string) : string :=
  match s with
  | EmptyString => EmptyString
  | String c s' => if is_space c then lstrip s' else s
  end.

Fixpoint rstrip (s : string) : string :=
  match s with
  | EmptyString => EmptyString
  | String c s' =>
      match rstrip s' with
      | EmptyString => if is_space c then EmptyString else String c EmptyString
      | r => String c r
      end
  end.

(** [s.strip()] *)
Definition strip (s : string) : string := rstrip (lstrip s).

(** The longest prefix of [s] whose characters all satisfy [p]: what a
    greedy [[class]+] consumes. *)
Fixpoint take_while (p : ascii -> bool) (s : string) : string :=
  match s with
  | EmptyString => EmptyString
  | String c s' => if p c then String c (take_while p s') else EmptyString
  end.

Fixpoint str_drop (n : nat) (s : string) : string :=
  match n, s with
  | O, _ => s
  | S _, EmptyString => EmptyString
  | S k, String _ s' => str_drop k s'
  end.

Fixpoint str_take (n : nat) (s : string) : string :=
  match n, s with
  | O, _ => EmptyString
  | S _, EmptyString => EmptyString
  | S k, String c s' => String c (str_take k s')
  end.

(** [s[start:stop]] for [0 <= start], [0 <= stop]: out-of-range bounds are
    clipped, as Python does. *)
Definition str_slice (s : string) (start stop : nat) : string :=
  str_take (stop - start) (str_drop start s).

(** All characters of [s] satisfy [p]. *)
Fixpoint str_forall (p : ascii -> bool) (s : string) : bool :=
  match s with
  | EmptyString => true
  | String c s' => p c && str_forall p s'
  end.

(** [s] is empty or starts with a character that satisfies [p]. *)
Definition ends_or_starts_with (p : ascii -> bool) (s : string) : bool :=
  match s with
  | EmptyString => true
  | String c _ => p c
  end.

Definition is_empty (s : string) : bool :=
  match s with EmptyString => true | _ => false end.

(** [s.replace(old, "")] scans left to right and drops every occurrence of
    [old] that does not overlap an earlier dropped one.  [skip] counts the
    characters of the current occurrence still to drop. *)
Fixpoint remove_from (old : string) (skip : nat) (s : string) : string :=
  match s with
  | EmptyString => EmptyString
  | String c s' =>
      match skip with
      | S k => remove_from old k s'
      | O =>
          if String.prefix old s
          then remove_from old (String.length old - 1) s'
          else String c (remove_from old 0 s')
      end
  end.

Definition str_remove (old s : string) : string :=
  if is_empty old then s else remove_from old 0 s.

(** [re.match(r'(https?://[^\s]+)', s)]: the pattern anchored at the start
    of [s].  When [s] starts with [https://] but no non-space character
    follows, the engine retries with the optional [s] absent, and fails
    because [://] does not follow [http]. *)
Definition match_url_here (s : string) : option string :=
  let attempt (scheme : string) :=
    if String.prefix scheme s then
      let run := take_while (fun c => negb (is_space c))
                            (str_drop (String.length scheme) s) in
      if is_empty run then None else Some (scheme +:+ run)
    else None in
  match attempt "https://" with
  | Some u => Some u
  | None => attempt "http://"
  end.

(** [re.search(r'(https?://[^\s]+)', s)] then [.group(0)]: the leftmost
    position at which the pattern matches. *)
Fixpoint search_url (s : string) : option string :=
  match match_url_here s with
  | Some u => Some u
  | None =>
      match s with
      | EmptyString => None
      | String _ s' => search_url s'
      end
  end.

(** [re.search(r'https?://', s)] as a truth value. *)
Fixpoint has_scheme (s : string) : bool :=
  if String.prefix "https://" s || String.prefix "http://" s then true
  else match s with
       | EmptyString => false
       | String _ s' => has_scheme s'
       end.

(** [re.findall(r'\+(\w+)', s)]: the captured words of the successive
    non-overlapping matches.  [skip] counts the characters of the current
    match still to pass. *)
Fixpoint findall_from (skip : nat) (s : string) : list string :=
  match s with
  | EmptyString => []
  | String c s' =>
      match skip with
      | S k => findall_from k s'
      | O =>
          if Ascii.eqb c "+" then
            let w := take_while is_word s' in
            if is_empty w then findall_from 0 s'
            else w :: findall_from (String.length w) s'
          else findall_from 0 s'
      end
  end.

Definition findall_labels (s : string) : list string := findall_from 0 s.

(** ** [extract_url_title_labels] *)

(** The returned triple [(url, title, labels)], with [None] for Python's
    [None]. *)
Definition extract_url_title_labels (text : string)
  : option string * option string * list string :=
  match search_url text with
  | None => (None, None, [])
  | Some url =>
      let after_url := strip (str_remove url text) in
      let labels := findall_labels after_url in
      let after_url :=
        fold_left (fun acc lbl => str_remove ("+" +:+ lbl) acc) labels after_url in
      let title := strip after_url in
      (Some url, if is_empty title then None else Some title, labels)
  end.

(** What the design document says the message parser does, written from
    its words: take the first URL token, remove that one occurrence, read
    the [+word] tokens of the remainder, remove those tokens, trim. *)

(** Removes the leftmost occurrence of [old] only. *)
Fixpoint remove_first (old : string) (s : string) : string :=
  if String.prefix old s then str_drop (String.length old) s
  else match s with
       | EmptyString => EmptyString
       | String c s' => String c (remove_first old s')
       end.

(** Removes each [+word] token where it stands. *)
Fixpoint strip_tokens_from (skip : nat) (s : string) : string :=
  match s with
  | EmptyString => EmptyString
  | String c s' =>
      match skip with
      | S k => strip_tokens_from k s'
      | O =>
          if Ascii.eqb c "+" then
            let w := take_while is_word s' in
            if is_empty w then String c (strip_tokens_from 0 s')
            else strip_tokens_from (String.length w) s'
          else String c (strip_tokens_from 0 s')
      end
  end.

Definition spec_parse (text : string)
  : option (string * option string * list string) :=
  match search_url text with
  | None => None
  | Some url =>
      let remainder := remove_first url text in
      let tags := findall_labels remainder in
      let title := strip (strip_tokens_from 0 remainder) in
      Some (url, if is_empty title then None else Some title, tags)
  end.

(** ** Chunking of long replies *)

(** [range(start, stop, step)] for a positive [step], unrolled at most
    [fuel] times. *)
Fixpoint range_from (fuel start stop step : nat) : list nat :=
  match fuel with
  | O => []
  | S fuel' =>
      if (start <? stop)%nat
      then start :: range_from fuel' (start + step) stop step
      else []
  end.

(** [range(0, stop, step)]: [stop] unrollings are enough when
    [step >= 1]. *)
Definition py_range (stop step : nat) : list nat := range_from stop 0 stop step.

(** The [limit] of [send_long_message] and the size that its comment
    gives for a Telegram message. *)
Definition limit : nat := 4000.
Definition TELEGRAM_MESSAGE_LIMIT : nat := 4096.

(** The slices [text[start:start+lim]] for [start] in
    [range(0, len(text), lim)]. *)
Definition chunks_with (lim : nat) (text : string) : list string :=
  map (fun start => str_slice text start (start + lim))
      (py_range (String.length text) lim).

Definition ceil_div (n d : nat) : nat := ((n + d - 1) / d)%nat.

Fixpoint str_concat (l : list string) : string :=
  match l with
  | [] => EmptyString
  | s :: l' => s +:+ str_concat l'
  end.

(** ** JSON values as Python sees them *)

(** The result of [json.loads] and of [Response.json()]; numbers are the
    integers.  An object lists its members in document order. *)
#[warnings="-register-all"]
Inductive json : Type :=
| JNull
| JBool (b : bool)
| JInt (n : Z)
| JStr (s : string)
| JArr (items : list json)
| JObj (members : list (string * json)).

(** Truth value of a Python object in [if x:]. *)
Definition truthy (j : json) : bool :=
  match j with
  | JNull => false
  | JBool b => b
  | JInt n => negb (n =? 0)%Z
  | JStr s => negb (is_empty s)
  | JArr items => match items with [] => false | _ => true end
  | JObj members => match members with [] => false | _ => true end
  end.

(** [d.get(key)] on a dict loaded from JSON: a repeated member name keeps
    its last value. *)
Fixpoint dict_get (key : string) (members : list (string * json)) : option json :=
  match members with
  | [] => None
  | (k, v) :: rest =>
      match dict_get key rest with
      | Some v' => Some v'
      | None => if String.eqb k key then Some v else None
      end
  end.

(** [str(n)] for an [int]. *)
Definition str_of_int (n : Z) : string := NilZero.string_of_int (Z.to_int n).

Definition hex_digit (n : nat) : ascii :=
  ascii_of_nat (if (n <? 10)%nat then 48 + n else 87 + n).

(** One character of [repr(s)] inside the quote [q]. *)
Definition repr_char (q c : ascii) : string :=
  let n := nat_of_ascii c in
  if Ascii.eqb c "\" then "\\"
  else if Ascii.eqb c q then String "\" (String q EmptyString)
  else if (n =? 9)%nat then "\t"
  else if (n =? 10)%nat then "\n"
  else if (n =? 13)%nat then "\r"
  else if (n <? 32)%nat || (n =? 127)%nat
       then String "\" (String "x" (String (hex_digit (n / 16))
                                      (String (hex_digit (n mod 16)) EmptyString)))
  else String c EmptyString.

Fixpoint repr_chars (q : ascii) (s : string) : string :=
  match s with
  | EmptyString => EmptyString
  | String c s' => repr_char q c +:+ repr_chars q s'
  end.

Definition double_quote : ascii := ascii_of_nat 34.

Fixpoint str_contains_char (c : ascii) (s : string) : bool :=
  match s with
  | EmptyString => false
  | String d s' => Ascii.eqb c d || str_contains_char c s'
  end.

(** [repr(s)] for a [str]: single quotes, unless the text has a single
    quote and no double quote. *)
Definition repr_str (s : string) : string :=
  let q : ascii :=
    if str_contains_char "'"%char s && negb (str_contains_char double_quote s)
    then double_quote else "'"%char in
  String q (repr_chars q s) +:+ String q EmptyString.

Fixpoint str_join (sep : string) (l : list string) : string :=
  match l with
  | [] => EmptyString
  | [s] => s
  | s :: l' => s +:+ sep +:+ str_join sep l'
  end.

Fixpoint py_repr (j : json) : string :=
  match j with
  | JNull => "None"
  | JBool true => "True"
  | JBool false => "False"
  | JInt n => str_of_int n
  | JStr s => repr_str s
  | JArr items => "[" +:+ str_join ", " (map py_repr items) +:+ "]"
  | JObj members =>
      "{" +:+ str_join ", "
                (map (fun kv => repr_str (fst kv) +:+ ": " +:+ py_repr (snd kv))
                     members)
          +:+ "}"
  end.

(** [str(x)], which an f-string applies to [{x}]. *)
Definition py_str (j : json) : string :=
  match j with
  | JStr s => s
  | _ => py_repr j
  end.

(** [d.get(key, default)]; [d.get(key)] has [default = None]. *)
Definition dict_get_or (key : string) (default : json)
    (members : list (string * json)) : json :=
  match dict_get key members with
  | Some v => v
  | None => default
  end.

(** ** A [dict] keyed by strings

    A Python [dict] keeps its items in the order in which their keys were
    first inserted, and [json.dumps] writes them in that order. *)

Record pydict : Type := PyDict { dict_items : list (string * json) }.

(** [d[key]]: the item with that key, if there is one. *)
Fixpoint items_lookup (key : string) (items : list (string * json)) : option json :=
  match items with
  | [] => None
  | (k, v) :: rest => if String.eqb k key then Some v else items_lookup key rest
  end.

(** [d[key] = value]: the value of a key that is present is replaced where
    the item stands; a new key is added at the end. *)
Fixpoint items_set (key : string) (value : json) (items : list (string * json))
  : list (string * json) :=
  match items with
  | [] => [(key, value)]
  | (k, v) :: rest =>
      if String.eqb k key then (k, value) :: rest
      else (k, v) :: items_set key value rest
  end.

(** [del d[key]] for a key that is present. *)
Fixpoint items_del (key : string) (items : list (string * json))
  : list (string * json) :=
  match items with
  | [] => []
  | (k, v) :: rest =>
      if String.eqb k key then items_del key rest
      else (k, v) :: items_del key rest
  end.

#[global] Instance pydict_empty : Empty pydict := PyDict [].
#[global] Instance pydict_lookup : Lookup string json pydict :=
  fun key d => items_lookup key (dict_items d).
#[global] Instance pydict_insert : Insert string json pydict :=
  fun key value d => PyDict (items_set key value (dict_items d)).
#[global] Instance pydict_delete : Delete string pydict :=
  fun key d => PyDict (items_del key (dict_items d)).

(** [d.update(other)] *)
Definition dict_update (d : pydict) (other : list (string * json)) : pydict :=
  fold_left (fun acc kv => <[fst kv := snd kv]> acc) other d.

(** ** The outside world *)

Inductive exn : Type :=
| OSError
| KeyError
| IndexError
| AttributeError
| JSONDecodeError
| RequestException.

Inductive outcome (A : Type) : Type :=
| Ret (a : A)
| Raise (e : exn).
Arguments Ret {A} a.
Arguments Raise {A} e.

(** What [Path.write_text] did: it wrote the content and returned, or it
    raised and left the file as [remains] ([None]: there is no file). *)
Inductive written (World : Type) : Type :=
| Written (w : World)
| WriteFailed (e : exn) (remains : option string) (w : World).
Arguments Written {World} w.
Arguments WriteFailed {World} e remains w.

(** [subprocess.CompletedProcess], as far as the bot reads it. *)
Record CompletedProcess : Type := {
  returncode : Z;
  stderr : string
}.

(** [requests.Response], as far as the bot reads it: [json_body] is
    [None] when [.json()] raises. *)
Record Response : Type := {
  status_code : Z;
  headers_get : string -> option string;
  json_body : option json;
  text : string
}.

Inductive ParseMode : Type := MARKDOWN.

(** [telegram.Update] and [CallbackContext], as far as the handlers read
    them. *)
Record Update : Type := {
  effective_user_id : Z;
  message_text : string
}.

(** The calls a handler makes to the outside, in the order it makes
    them. *)
Inductive event : Type :=
| SubprocessRun (args : list string)
| RequestsPost (url : string) (headers : list (string * string)) (payload : json)
| RequestsGet (url : string) (headers : list (string * string))
| ReplyText (body : string) (parse_mode : option ParseMode)
| WriteText (content : string).

Definition is_reply (e : event) : bool :=
  match e with ReplyText _ _ => true | _ => false end.

Definition is_post (e : event) : bool :=
  match e with RequestsPost _ _ _ => true | _ => false end.

(** A call to the backend: a provisioning subprocess or an HTTP
    request. *)
Definition is_backend_call (e : event) : bool :=
  match e with
  | SubprocessRun _ | RequestsPost _ _ _ | RequestsGet _ _ => true
  | _ => false
  end.

(** The texts sent to the user, in order. *)
Definition replies (evs : list event) : list string :=
  flat_map (fun e => match e with ReplyText b _ => [b] | _ => [] end) evs.

Definition nl : string := String (ascii_of_nat 10) EmptyString.

(** [needle in haystack] *)
Fixpoint str_contains (needle haystack : string) : bool :=
  if String.prefix needle haystack then true
  else match haystack with
       | EmptyString => false
       | String _ rest => str_contains needle rest
       end.

Definition first_char (s : string) : option ascii :=
  match s with
  | EmptyString => None
  | String c _ => Some c
  end.

Fixpoint last_char (s : string) : option ascii :=
  match s with
  | EmptyString => None
  | String c s' =>
      match last_char s' with
      | Some d => Some d
      | None => Some c
      end
  end.

(** [o] is a character, and not white space. *)
Definition is_ink (o : option ascii) : bool :=
  match o with
  | Some c => negb (is_space c)
  | None => false
  end.

Definition is_get (e : event) : bool :=
  match e with RequestsGet _ _ => true | _ => false end.

Definition is_subprocess (e : event) : bool :=
  match e with SubprocessRun _ => true | _ => false end.

Definition is_write (e : event) : bool :=
  match e with WriteText _ => true | _ => false end.

(** The process state: the token table [USER_TOKEN_MAP], the content of
    [.user_tokens.json] ([None] while the file does not exist) and the
    outside. *)
Record bot_state (World : Type) : Type := {
  USER_TOKEN_MAP : pydict;
  token_file : option string;
  world : World
}.
Arguments USER_TOKEN_MAP {World} _.
Arguments token_file {World} _.
Arguments world {World} _.
Arguments Build_bot_state {World} _ _ _.

(** The three components of what a handler returns. *)
Definition result_of {A S : Type} (x : outcome A * S * list event) : outcome A :=
  fst (fst x).
Definition state_of {A S : Type} (x : outcome A * S * list event) : S :=
  snd (fst x).
Definition events_of {A S : Type} (x : outcome A * S * list event) : list event :=
  snd x.

(** ** Sample surroundings

    Small outside worlds on which the handlers can be run: a world without
    state of its own, whose answers depend on the request only. *)

Definition sample_process (local_code docker_code : Z) (err : string)
  : list string -> unit -> outcome CompletedProcess * unit :=
  fun args w =>
    match args with
    | "docker" :: _ => (Ret {| returncode := docker_code; stderr := err |}, w)
    | _ => (Ret {| returncode := local_code; stderr := err |}, w)
    end.

Definition sample_response (status : Z) (bookmark_id : option string)
    (body : option json) (content : string) : Response :=
  {| status_code := status;
     headers_get := fun name =>
       if String.eqb name "Bookmark-Id" then bookmark_id else None;
     json_body := body;
     text := content |}.

Definition sample_post (r : Response)
  : string -> list (string * string) -> json -> unit -> outcome Response * unit :=
  fun _ _ _ w => (Ret r, w).

Definition sample_get (r : Response)
  : string -> list (string * string) -> unit -> outcome Response * unit :=
  fun _ _ w => (Ret r, w).

(** A serializer that writes the table as Python prints it, and a parser
    that knows one document only and raises on any other. *)
Definition sample_dumps : pydict -> string :=
  fun table => py_repr (JObj (dict_items table)).
Definition sample_loads : string -> option json :=
  fun content =>
    if String.eqb content "{'42': 'tok'}"
    then Some (JObj [("42", JStr "tok")])
    else None.

Definition sample_update (body : string) : Update :=
  {| effective_user_id := 42; message_text := body |}.

(** A file that can be written, and one that cannot: the write raises
    and leaves the file as it was. *)
Definition sample_write : string -> unit -> written unit :=
  fun _ w => Written w.
Definition sample_write_fails (before : option string)
  : string -> unit -> written unit :=
  fun _ w => WriteFailed OSError before w.

(** A machine without the local tool: starting it raises, and the
    container answers with [docker_code]. *)
Definition sample_process_missing (docker_code : Z) (err : string)
  : list string -> unit -> outcome CompletedProcess * unit :=
  fun args w =>
    match args with
    | "docker" :: _ => (Ret {| returncode := docker_code; stderr := err |}, w)
    | _ => (Raise OSError, w)
    end.

(** A machine on which the local tool ends with [local_code] and the
    container cannot be started. *)
Definition sample_process_no_container (local_code : Z) (err : string)
  : list string -> unit -> outcome CompletedProcess * unit :=
  fun args w =>
    match args with
    | "docker" :: _ => (Raise OSError, w)
    | _ => (Ret {| returncode := local_code; stderr := err |}, w)
    end.

(** A process that has no token and no token file yet. *)
Definition sample_state : bot_state unit :=
  {| USER_TOKEN_MAP := ∅; token_file := None; world := tt |}.

(** A backend that cannot be reached. *)
Definition sample_post_raises (e : exn)
  : string -> list (string * string) -> json -> unit -> outcome Response * unit :=
  fun _ _ _ w => (Raise e, w).

(** A process in which user 42 has the token [tok]. *)
Definition sample_state_with_token : bot_state unit :=
  {| USER_TOKEN_MAP := <["42" := JStr "tok"]> ∅;
     token_file := Some "{'42': 'tok'}"; world := tt |}.

Fixpoint str_repeat (c : ascii) (n : nat) : string :=
  match n with
  | O => EmptyString
  | S k => String c (str_repeat c k)
  end.

(** ** The bot *)

Section Bot.

(** Configuration read from the environment at start-up. *)
Variable READECK_BASE_URL : string.
Variable READECK_CONFIG : option string.

(** [json.dumps(d, indent=2)], which writes the items of [d] in their
    order, and [json.loads]; the latter is [None] when it raises. *)
Variable json_dumps : pydict -> string.
Variable json_loads : string -> option json.

(** The outside: what a subprocess or an HTTP request answers, and how it
    changes the outside. *)
Variable World : Type.
Variable run_process : list string -> World -> outcome CompletedProcess * World.
Variable http_post :
  string -> list (string * string) -> json -> World -> outcome Response * World.
Variable http_get :
  string -> list (string * string) -> World -> outcome Response * World.
Variable write_text : string -> World -> written World.

Local Abbreviation state := (bot_state World).

Definition M (A : Type) : Type := state -> outcome A * state * list event.

Definition ret {A} (a : A) : M A := fun s => (Ret a, s, []).

Definition bind {A B} (m : M A) (k : A -> M B) : M B :=
  fun s =>
    match m s with
    | (Ret a, s1, evs1) =>
        match k a s1 with
        | (o, s2, evs2) => (o, s2, evs1 ++ evs2)
        end
    | (Raise e, s1, evs1) => (Raise e, s1, evs1)
    end.

Definition raise {A} (e : exn) : M A := fun s => (Raise e, s, []).

Notation "x <- m ;; k" := (bind m (fun x => k))
  (at level 100, m at level 99, k at level 200, right associativity).
Notation "m ;;; k" := (bind m (fun _ => k))
  (at level 100, k at level 200, right associativity).

(** [try: r = call  except requests.RequestException: ...]: [None] when
    the handler of the exception has to run. *)
Definition try_request (call : M Response) : M (option Response) :=
  fun s =>
    match call s with
    | (Ret r, s1, evs) => (Ret (Some r), s1, evs)
    | (Raise RequestException, s1, evs) => (Ret None, s1, evs)
    | (Raise e, s1, evs) => (Raise e, s1, evs)
    end.

Fixpoint for_each {A} (l : list A) (body : A -> M unit) : M unit :=
  match l with
  | [] => ret tt
  | x :: l' => body x ;;; for_each l' body
  end.

(** *** Calls to the outside *)

Definition reply_text (body : string) (parse_mode : option ParseMode) : M unit :=
  fun s => (Ret tt, s, [ReplyText body parse_mode]).

Definition subprocess_run (args : list string) : M CompletedProcess :=
  fun s =>
    match run_process args (world s) with
    | (o, w) =>
        (o, {| USER_TOKEN_MAP := USER_TOKEN_MAP s;
               token_file := token_file s; world := w |},
         [SubprocessRun args])
    end.

Definition requests_post (url : string) (headers : list (string * string))
    (payload : json) : M Response :=
  fun s =>
    match http_post url headers payload (world s) with
    | (o, w) =>
        (o, {| USER_TOKEN_MAP := USER_TOKEN_MAP s;
               token_file := token_file s; world := w |},
         [RequestsPost url headers payload])
    end.

Definition requests_get (url : string) (headers : list (string * string))
  : M Response :=
  fun s =>
    match http_get url headers (world s) with
    | (o, w) =>
        (o, {| USER_TOKEN_MAP := USER_TOKEN_MAP s;
               token_file := token_file s; world := w |},
         [RequestsGet url headers])
    end.

(** [r.json()] *)
Definition response_json (r : Response) : M json :=
  match json_body r with
  | Some j => ret j
  | None => raise JSONDecodeError
  end.

(** [data.get(key, default)] on the value [.json()] returned: only a
    [dict] has [get]. *)
Definition json_get (data : json) (key : string) (default : json) : M json :=
  match data with
  | JObj members => ret (dict_get_or key default members)
  | _ => raise AttributeError
  end.

(** [l[i]] for a list and [0 <= i]. *)
Definition list_index (l : list string) (i : nat) : M string :=
  match l !! i with
  | Some x => ret x
  | None => raise IndexError
  end.

(** [not l] for a list. *)
Definition list_is_empty {A} (l : list A) : bool :=
  match l with [] => true | _ => false end.

(** *** [PersistentDict] *)

(** [PersistentDict.__init__], given the content of the file. *)
Definition PersistentDict_init (file : option string) : pydict :=
  match file with
  | Some content =>
      match json_loads content with
      | Some (JObj members) => dict_update ∅ members
      | _ => ∅
      end
  | None => ∅
  end.

(** [_save]: the whole table is written over the file, unless
    [write_text] raises. *)
Definition PersistentDict_save : M unit :=
  fun s =>
    let content := json_dumps (USER_TOKEN_MAP s) in
    match write_text content (world s) with
    | Written w =>
        (Ret tt,
         {| USER_TOKEN_MAP := USER_TOKEN_MAP s;
            token_file := Some content; world := w |},
         [WriteText content])
    | WriteFailed e remains w =>
        (Raise e,
         {| USER_TOKEN_MAP := USER_TOKEN_MAP s;
            token_file := remains; world := w |},
         [WriteText content])
    end.

Definition dict_setitem (key : string) (value : json) : M unit :=
  fun s =>
    (Ret tt,
     {| USER_TOKEN_MAP := <[key := value]> (USER_TOKEN_MAP s);
        token_file := token_file s; world := world s |},
     []).

Definition dict_delitem (key : string) : M unit :=
  fun s =>
    match USER_TOKEN_MAP s !! key with
    | Some _ =>
        (Ret tt,
         {| USER_TOKEN_MAP := delete key (USER_TOKEN_MAP s);
            token_file := token_file s; world := world s |},
         [])
    | None => (Raise KeyError, s, [])
    end.

(** [__setitem__] *)
Definition PersistentDict_setitem (key : string) (value : json) : M unit :=
  dict_setitem key value ;;; PersistentDict_save.

(** [__delitem__] *)
Definition PersistentDict_delitem (key : string) : M unit :=
  dict_delitem key ;;; PersistentDict_save.

(** [.get(key)], inherited from [dict]: [None] for a missing key. *)
Definition PersistentDict_get (key : string) : M json :=
  fun s => (Ret (default JNull (USER_TOKEN_MAP s !! key)), s, []).

(** The state in which the handlers start: [USER_TOKEN_MAP =
    PersistentDict(".user_tokens.json")]. *)
Definition startup (file : option string) (w : World) : state :=
  {| USER_TOKEN_MAP := PersistentDict_init file;
     token_file := file; world := w |}.

(** *** Registration *)

(** [command] in [register_and_fetch_token].  Python reads the expression
    as [(["readeck", "user"] + ['-config', READECK_CONFIG]) if
    READECK_CONFIG else ([] + ["-u", username, "-p", password])]: a
    conditional expression binds weaker than [+]. *)
Definition command (username password : string) : list string :=
  match READECK_CONFIG with
  | Some config =>
      if negb (is_empty config)
      then ["readeck"; "user"] ++ ["-config"; config]
      else [] ++ ["-u"; username; "-p"; password]
  | None => [] ++ ["-u"; username; "-p"; password]
  end.

Definition docker_command (username password : string) : list string :=
  ["docker"; "run"; "codeberg.org/readeck/readeck:latest";
   "readeck"; "user"; "-u"; username; "-p"; password].

(** The part of [register_and_fetch_token] from the request to
    [/api/auth] on, which both provisioning paths reach. *)
Definition fetch_token (update : Update) (username password : string) : M unit :=
  let auth_url := READECK_BASE_URL +:+ "/api/auth" in
  let payload :=
    JObj [("application", JStr "telegram bot");
          ("username", JStr username);
          ("password", JStr password)] in
  let headers :=
    [("accept", "application/json"); ("content-type", "application/json")] in
  r <- requests_post auth_url headers payload ;;
  if (200 <=? status_code r)%Z && (status_code r <? 300)%Z then
    data <- response_json r ;;
    token <- json_get data "token" JNull ;;
    if truthy token then
      PersistentDict_setitem (str_of_int (effective_user_id update)) token ;;;
      reply_text "Registration successful! Your token has been saved." None
    else
      reply_text "Registration succeeded but failed to retrieve token." None
  else
    reply_text "Having troubles now... try later." None.

Definition register_and_fetch_token (update : Update)
    (username password : string) : M unit :=
  result <- subprocess_run (command username password) ;;
  if negb (returncode result =? 0)%Z then
    result <- subprocess_run (docker_command username password) ;;
    if negb (returncode result =? 0)%Z then
      reply_text ("Registration failed: " +:+ strip (stderr result)) None
    else
      fetch_token update username password
  else
    fetch_token update username password.

Definition register_usage : string :=
  "Usage: /register <user> <password>" +:+ nl +:+
  "Usage: /register <password> (your Telegram user ID will be used as username).".

Definition register_command (update : Update) (args : list string) : M unit :=
  let user_id := effective_user_id update in
  if list_is_empty args then
    let username := str_of_int user_id in
    let password := str_of_int user_id in
    register_and_fetch_token update username password
  else if (length args =? 1)%nat then
    let username := str_of_int user_id in
    password <- list_index args 0 ;;
    register_and_fetch_token update username password
  else if (length args =? 2)%nat then
    username <- list_index args 0 ;;
    password <- list_index args 1 ;;
    register_and_fetch_token update username password
  else
    reply_text register_usage None.

(** *** [/token] *)

Definition token_command (update : Update) (args : list string) : M unit :=
  let user_id := effective_user_id update in
  if list_is_empty args || negb (length args =? 1)%nat then
    reply_text "Usage: /token <YOUR_READECK_TOKEN>" None
  else
    token <- list_index args 0 ;;
    PersistentDict_setitem (str_of_int user_id) (JStr token) ;;;
    reply_text "Your Readeck token has been saved." None.

(** *** Bookmarks *)

Definition bearer_headers (token : json) (accept : string)
  : list (string * string) :=
  [("Authorization", "Bearer " +:+ py_str token); ("accept", accept)].

Definition truthy_str (o : option string) : bool :=
  match o with
  | Some s => negb (is_empty s)
  | None => false
  end.

(** [data] in [save_bookmark]: the keys [title] and [labels] are set only
    for a title and a list that Python takes for true. *)
Definition bookmark_data (url : string) (title : option string)
    (labels : list string) : json :=
  JObj ([("url", JStr url)]
        ++ (if truthy_str title
            then [("title", JStr (default EmptyString title))] else [])
        ++ (match labels with
            | [] => []
            | _ => [("labels", JArr (map JStr labels))]
            end)).

(** [headers] in [save_bookmark]. *)
Definition bookmark_headers (token : json) : list (string * string) :=
  bearer_headers token "application/json"
  ++ [("content-type", "application/json")].

Definition save_bookmark (update : Update) (url : string)
    (title : option string) (labels : list string) (token : json) : M unit :=
  let data := bookmark_data url title labels in
  let headers := bookmark_headers token in
  posted <- try_request
              (requests_post (READECK_BASE_URL +:+ "/api/bookmarks") headers
                             data) ;;
  match posted with
  | None => reply_text "Having troubles now... try later." None
  | Some r =>
      if (status_code r =? 202)%Z then
        match headers_get r "Bookmark-Id" with
        | Some bookmark_id =>
            if negb (is_empty bookmark_id) then
              fetched <- try_request
                           (requests_get
                              (READECK_BASE_URL +:+ "/api/bookmarks/" +:+ bookmark_id)
                              headers) ;;
              match fetched with
              | None => reply_text "Having troubles now... try later." None
              | Some details =>
                  if (status_code details =? 200)%Z then
                    info <- response_json details ;;
                    real_title <- json_get info "title" (JStr "No Title") ;;
                    href <- json_get info "href" (JStr EmptyString) ;;
                    if truthy href then
                      reply_text
                        ("Saved: [" +:+ py_str real_title +:+ "](" +:+ py_str href
                         +:+ ")" +:+ nl +:+ nl +:+
                         "Use `/md_" +:+ bookmark_id
                         +:+ "` to view the article's markdown.")
                        (Some MARKDOWN)
                    else
                      reply_text
                        ("Saved: " +:+ py_str real_title +:+ nl +:+ nl +:+
                         "Use `/md_" +:+ bookmark_id
                         +:+ "` to view the article's markdown.")
                        None
                  else
                    reply_text "Saved bookmark but failed to retrieve details." None
              end
            else
              reply_text "Saved bookmark but missing Bookmark-Id header." None
        | None =>
            reply_text "Saved bookmark but missing Bookmark-Id header." None
        end
      else
        reply_text "Failed to save bookmark." None
  end.

Definition no_token_message : string :=
  "I don't have your Readeck token. " +:+
  "Set it with /token <YOUR_TOKEN> or /register <password>.".

Definition handle_message (update : Update) : M unit :=
  let user_id := effective_user_id update in
  let text := strip (message_text update) in
  token <- PersistentDict_get (str_of_int user_id) ;;
  if negb (truthy token) then
    reply_text no_token_message None
  else if has_scheme text then
    match extract_url_title_labels text with
    | (url, title, labels) =>
        if negb (truthy_str url) then
          reply_text "I couldn't find a valid URL." None
        else
          save_bookmark update (default EmptyString url) title labels token
    end
  else
    reply_text
      ("I don't recognize this input." +:+ nl +:+
       "After saving a bookmark, use the provided /md_<bookmark_id> command to view its markdown.")
      None.

(** *** Markdown of a saved article *)

Definition send_long_message (update : Update) (text : string) : M unit :=
  for_each (py_range (String.length text) limit)
           (fun start => reply_text (str_slice text start (start + limit)) None).

Definition fetch_article_markdown (update : Update) (bookmark_id : string)
    (token : json) : M unit :=
  let headers := bearer_headers token "application/epub+zip" in
  fetched <- try_request
               (requests_get
                  (READECK_BASE_URL +:+ "/api/bookmarks/" +:+ bookmark_id
                   +:+ "/article.md")
                  headers) ;;
  match fetched with
  | None => reply_text "Having troubles now... try later." None
  | Some r =>
      if (status_code r =? 200)%Z then
        send_long_message update (text r)
      else
        reply_text "Failed to retrieve the article markdown." None
  end.

Definition dynamic_md_handler (update : Update) : M unit :=
  let text := strip (message_text update) in
  if String.prefix "/md_" text then
    let bookmark_id := str_drop (String.length "/md_") text in
    let user_id := effective_user_id update in
    token <- PersistentDict_get (str_of_int user_id) ;;
    if negb (truthy token) then
      reply_text no_token_message None
    else
      fetch_article_markdown update bookmark_id token
  else
    reply_text
      ("I don't recognize this command." +:+ nl +:+
       "If you want the markdown of a saved article, use /md_<bookmark_id>.")
      None.

(** *** Statements of the design document, in its words *)

(** The contract the design document gives for the local provisioning
    command: [user], then [-config <path>] when a path is configured,
    then [-u <username> -p <password>]. *)
Definition spec_command (username password : string) : list string :=
  ["readeck"; "user"]
  ++ (match READECK_CONFIG with
      | Some config => if negb (is_empty config) then ["-config"; config] else []
      | None => []
      end)
  ++ ["-u"; username; "-p"; password].

(** Provisioning succeeded and left the outside in [w]: the local tool
    exited with 0, or it exited with another code and the container
    exited with 0. *)
Definition provisioned (username password : string) (w0 w : World) : Prop :=
  (exists p1,
      run_process (command username password) w0 = (Ret p1, w)
      /\ returncode p1 = 0%Z)
  \/ (exists p1 w1 p2,
         run_process (command username password) w0 = (Ret p1, w1)
         /\ returncode p1 <> 0%Z
         /\ run_process (docker_command username password) w1 = (Ret p2, w)
         /\ returncode p2 = 0%Z).

(** What the design document says of a bookmark whose details could not
    be read: the reply names the follow-up command [md_<BookmarkId>]. *)
Definition spec_details_unavailable (bookmark_id : string)
    (evs : list event) : Prop :=
  exists body, In body (replies evs)
               /\ str_contains ("md_" +:+ bookmark_id) body = true.

(** What the design document says of a text message: the parser runs
    first, and a text without URL gets the reply that no URL was found,
    whether or not a credential is stored. *)
Definition spec_parse_first (update : Update) (evs : list event) : Prop :=
  spec_parse (strip (message_text update)) = None ->
  replies evs = ["I couldn't find a valid URL."]
  \/ replies evs =
       ["I don't recognize this input." +:+ nl +:+
        "After saving a bookmark, use the provided /md_<bookmark_id> command to view its markdown."].

(** *** What a handler does to the token table *)

(** The token table and its file are in [s'] what they were in [s]. *)
Definition tokens_unchanged (s s' : state) : Prop :=
  USER_TOKEN_MAP s' = USER_TOKEN_MAP s /\ token_file s' = token_file s.

(** The file holds the table of [s], as [json.dumps] writes it. *)
Definition file_synced (s : state) : Prop :=
  token_file s = Some (json_dumps (USER_TOKEN_MAP s)).

(** The handlers that [main] registers and that use the token table, with
    the arguments of the command where the handler reads them. *)
Inductive request : Type :=
| Register (args : list string)
| Token (args : list string)
| Command
| Message.

Definition handle (q : request) (update : Update) : M unit :=
  match q with
  | Register args => register_command update args
  | Token args => token_command update args
  | Command => dynamic_md_handler update
  | Message => handle_message update
  end.

(** ** Properties *)

(** *** Strings *)

Lemma append_String (c : ascii) (a b : string) :
  String c a +:+ b = String c (a +:+ b).
Proof. reflexivity. Qed.

Lemma append_assoc (a b c : string) : (a +:+ b) +:+ c = a +:+ (b +:+ c).
Proof.
  induction a as [|x a IH]; [reflexivity|].
  rewrite !append_String, IH. reflexivity.
Qed.

(** *** The message parser *)

Lemma take_while_split (p : ascii -> bool) (s : string) :
  s = take_while p s +:+ str_drop (String.length (take_while p s)) s
  /\ str_forall p (take_while p s) = true
  /\ ends_or_starts_with (fun c => negb (p c))
       (str_drop (String.length (take_while p s)) s) = true.
Proof.
  induction s as [|c s (IHeq & IHall & IHend)].
  - repeat split.
  - cbn [take_while]. destruct (p c) eqn:Hc.
    + cbn [String.length str_drop str_forall]. rewrite append_String.
      rewrite <- IHeq, Hc, IHall. repeat split. exact IHend.
    + cbn. rewrite Hc. repeat split.
Qed.

Lemma str_forall_app (p : ascii -> bool) (a b : string) :
  str_forall p (a +:+ b) = str_forall p a && str_forall p b.
Proof.
  induction a as [|c a IH]; [reflexivity|].
  rewrite append_String. cbn [str_forall]. rewrite IH.
  apply andb_assoc.
Qed.

Lemma prefix_split (a s : string) :
  String.prefix a s = true -> s = a +:+ str_drop (String.length a) s.
Proof.
  revert s. induction a as [|c a IH]; intros [|d s]; cbn [String.prefix];
    try reflexivity; try discriminate.
  destruct (ascii_dec c d) as [->|]; [|discriminate].
  intros H. rewrite append_String. cbn [String.length str_drop].
  rewrite <- (IH s H). reflexivity.
Qed.

Lemma ends_or_starts_with_negb (p : ascii -> bool) (s : string) :
  ends_or_starts_with (fun c => negb (negb (p c))) s = ends_or_starts_with p s.
Proof. destruct s as [|c s]; [reflexivity | apply negb_involutive]. Qed.

Lemma prefix_app (a b : string) : String.prefix a (a +:+ b) = true.
Proof.
  induction a as [|c a IH]; [destruct b; reflexivity|].
  rewrite append_String. cbn [String.prefix].
  destruct (ascii_dec c c); [exact IH | contradiction].
Qed.

(** The URL that the pattern finds at the start of [s] is a prefix of [s]
    that starts with [http://] or [https://], has no white space in it,
    and goes up to the end of [s] or the next white space. *)
Lemma match_url_here_shape (s u : string) :
  match_url_here s = Some u ->
  exists rest,
    s = u +:+ rest
    /\ (String.prefix "http://" u || String.prefix "https://" u = true)
    /\ str_forall (fun c => negb (is_space c)) u = true
    /\ ends_or_starts_with is_space rest = true.
Proof.
  unfold match_url_here.
  assert (Hattempt : forall scheme,
    str_forall (fun c => negb (is_space c)) scheme = true ->
    (if String.prefix scheme s
     then
       if is_empty (take_while (fun c => negb (is_space c))
                               (str_drop (String.length scheme) s))
       then None
       else Some (scheme +:+ take_while (fun c => negb (is_space c))
                               (str_drop (String.length scheme) s))
     else None) = Some u ->
    exists rest,
      s = u +:+ rest
      /\ String.prefix scheme u = true
      /\ str_forall (fun c => negb (is_space c)) u = true
      /\ ends_or_starts_with is_space rest = true).
  { intros scheme Hscheme.
    destruct (String.prefix scheme s) eqn:Hp; [|discriminate].
    destruct (is_empty _); [discriminate|]. intros [= <-].
    pose proof (take_while_split (fun c => negb (is_space c))
                  (str_drop (String.length scheme) s)) as (Heq & Hall & Hend).
    set (run := take_while _ _) in *.
    exists (str_drop (String.length run) (str_drop (String.length scheme) s)).
    split; [|split; [|split]].
    - rewrite append_assoc, <- Heq. apply prefix_split, Hp.
    - apply prefix_app.
    - rewrite str_forall_app, Hscheme, Hall. reflexivity.
    - rewrite <- Hend. symmetry. apply ends_or_starts_with_negb. }
  destruct (if String.prefix "https://" s then _ else None) as [v|] eqn:Hs.
  - intros [= <-]. apply Hattempt in Hs as (rest & ? & -> & ? & ?);
      [|reflexivity].
    exists rest. rewrite orb_true_r. repeat split; assumption.
  - intros Hh. apply Hattempt in Hh as (rest & ? & -> & ? & ?);
      [|reflexivity].
    exists rest. repeat split; assumption.
Qed.

(** The URL that [re.search] returns stands in the text, starts with
    [http://] or [https://], has no white space in it, and goes up to the
    end of the text or the next white space. *)
Lemma search_url_shape (s u : string) :
  search_url s = Some u ->
  exists before rest,
    s = before +:+ u +:+ rest
    /\ (String.prefix "http://" u || String.prefix "https://" u = true)
    /\ str_forall (fun c => negb (is_space c)) u = true
    /\ ends_or_starts_with is_space rest = true.
Proof.
  induction s as [|c s IH]; cbn [search_url].
  - cbn. discriminate.
  - destruct (match_url_here (String c s)) as [v|] eqn:Hm.
    + intros [= <-]. apply match_url_here_shape in Hm as (rest & Hm).
      exists EmptyString, rest. exact Hm.
    + intros Hs. apply IH in Hs as (before & rest & -> & Hrest).
      exists (String c before), rest. split; [reflexivity | exact Hrest].
Qed.

(** Every label that [re.findall] returns is a non-empty word. *)
Lemma findall_from_words (s : string) (skip : nat) :
  Forall (fun w => is_empty w = false /\ str_forall is_word w = true)
         (findall_from skip s).
Proof.
  revert skip. induction s as [|c s IH]; intros skip; cbn [findall_from].
  - constructor.
  - destruct skip as [|k]; [|apply IH].
    destruct (Ascii.eqb c "+"); [|apply IH].
    destruct (is_empty (take_while is_word s)) eqn:He; [apply IH|].
    constructor; [|apply IH].
    split; [exact He | apply take_while_split].
Qed.

(** The parser returns no URL exactly when the pattern matches nowhere,
    and then neither title nor labels; otherwise the URL is the match, the
    title is not empty when there is one, and the labels are non-empty
    words. *)
Lemma extract_url_title_labels_shape (body : string) :
  match search_url body with
  | None => extract_url_title_labels body = (None, None, [])
  | Some found =>
      exists title labels,
        extract_url_title_labels body = (Some found, title, labels)
        /\ match title with
           | Some t => is_empty t = false
           | None => True
           end
        /\ Forall (fun w => is_empty w = false /\ str_forall is_word w = true)
                  labels
  end.
Proof.
  unfold extract_url_title_labels.
  destruct (search_url body) as [found|]; [|reflexivity].
  eexists _, _. split; [reflexivity|]. split.
  - destruct (is_empty (strip _)) eqn:E; [exact I | exact E].
  - apply findall_from_words.
Qed.

(** *** Running a handler *)

(** Runs the first call to the outside of the handler in the goal; [H]
    tells what the outside answers. *)
Ltac first_call H :=
  unfold bind at 1;
  try unfold try_request at 1;
  first [ unfold subprocess_run at 1
        | unfold requests_post at 1
        | unfold requests_get at 1 ];
  cbn [USER_TOKEN_MAP token_file world];
  rewrite H.

(** *** Dictionaries *)

Lemma pydict_lookup_empty (k : string) : (∅ : pydict) !! k = None.
Proof. reflexivity. Qed.

Lemma pydict_lookup_insert_eq (d : pydict) (k : string) (v : json) :
  <[k := v]> d !! k = Some v.
Proof.
  destruct d as [items]. unfold lookup, insert, pydict_lookup, pydict_insert.
  cbn [dict_items].
  induction items as [|[k' v'] rest IH]; cbn [items_set items_lookup].
  - rewrite String.eqb_refl. reflexivity.
  - destruct (String.eqb k' k) eqn:E; cbn [items_lookup]; rewrite E.
    + reflexivity.
    + exact IH.
Qed.

Lemma pydict_lookup_insert_ne (d : pydict) (k k' : string) (v : json) :
  k <> k' -> <[k := v]> d !! k' = d !! k'.
Proof.
  intros Hne. destruct d as [items].
  unfold lookup, insert, pydict_lookup, pydict_insert. cbn [dict_items].
  induction items as [|[k0 v0] rest IH]; cbn [items_set items_lookup].
  - apply String.eqb_neq in Hne. rewrite Hne. reflexivity.
  - destruct (String.eqb k0 k) eqn:E; cbn [items_lookup].
    + apply String.eqb_eq in E. subst k0.
      apply String.eqb_neq in Hne. rewrite Hne. reflexivity.
    + destruct (String.eqb k0 k'); [reflexivity | exact IH].
Qed.

Lemma pydict_lookup_delete_eq (d : pydict) (k : string) :
  delete k d !! k = None.
Proof.
  destruct d as [items]. unfold lookup, delete, pydict_lookup, pydict_delete.
  cbn [dict_items].
  induction items as [|[k' v'] rest IH]; cbn [items_del items_lookup].
  - reflexivity.
  - destruct (String.eqb k' k) eqn:E; [exact IH|].
    cbn [items_lookup]. rewrite E. exact IH.
Qed.

Lemma pydict_lookup_delete_ne (d : pydict) (k k' : string) :
  k <> k' -> delete k d !! k' = d !! k'.
Proof.
  intros Hne. destruct d as [items].
  unfold lookup, delete, pydict_lookup, pydict_delete. cbn [dict_items].
  induction items as [|[k0 v0] rest IH]; cbn [items_del items_lookup].
  - reflexivity.
  - destruct (String.eqb k0 k) eqn:E.
    + apply String.eqb_eq in E. subst k0.
      apply String.eqb_neq in Hne. rewrite Hne. exact IH.
    + cbn [items_lookup]. destruct (String.eqb k0 k'); [reflexivity | exact IH].
Qed.

Lemma pydict_insert_insert_eq (d : pydict) (k : string) (v v' : json) :
  <[k := v']> (<[k := v]> d) = <[k := v']> d.
Proof.
  destruct d as [items]. unfold insert, pydict_insert. cbn [dict_items].
  f_equal.
  induction items as [|[k0 v0] rest IH]; cbn [items_set].
  - rewrite String.eqb_refl. reflexivity.
  - destruct (String.eqb k0 k) eqn:E; cbn [items_set]; rewrite E.
    + reflexivity.
    + f_equal. exact IH.
Qed.

(** No key occurs twice among the items of a [dict], and the operations
    keep it so. *)
Lemma items_set_keys (k : string) (v : json) (items : list (string * json))
    (k' : string) :
  In k' (map fst (items_set k v items)) -> k' = k \/ In k' (map fst items).
Proof.
  induction items as [|[k0 v0] rest IH]; cbn [items_set map fst In].
  - intros [<-|[]]. left. reflexivity.
  - destruct (String.eqb k0 k) eqn:E; cbn [map fst In].
    + intros H. right. exact H.
    + intros [H|H]; [right; left; exact H|].
      destruct (IH H) as [Hk|Hin]; [left; exact Hk | right; right; exact Hin].
Qed.

Lemma items_set_NoDup (k : string) (v : json) (items : list (string * json)) :
  List.NoDup (map fst items) -> List.NoDup (map fst (items_set k v items)).
Proof.
  induction items as [|[k0 v0] rest IH]; cbn [items_set map fst].
  - intros _. constructor; [intros [] | constructor].
  - intros Hnodup. inversion Hnodup as [|? ? Hnotin Hrest]; subst.
    destruct (String.eqb k0 k) eqn:E; cbn [map fst].
    + constructor; assumption.
    + constructor; [|apply IH; exact Hrest].
      intros Hin. apply items_set_keys in Hin as [Hk|Hin].
      * apply String.eqb_neq in E. congruence.
      * apply Hnotin. exact Hin.
Qed.

Lemma items_del_keys (k : string) (items : list (string * json)) (k' : string) :
  In k' (map fst (items_del k items)) -> In k' (map fst items).
Proof.
  induction items as [|[k0 v0] rest IH]; cbn [items_del map fst In].
  - intros [].
  - destruct (String.eqb k0 k); cbn [map fst In].
    + intros H. right. apply IH. exact H.
    + intros [H|H]; [left; exact H | right; apply IH; exact H].
Qed.

Lemma items_del_NoDup (k : string) (items : list (string * json)) :
  List.NoDup (map fst items) -> List.NoDup (map fst (items_del k items)).
Proof.
  induction items as [|[k0 v0] rest IH]; cbn [items_del map fst].
  - intros _. constructor.
  - intros Hnodup. inversion Hnodup as [|? ? Hnotin Hrest]; subst.
    destruct (String.eqb k0 k); cbn [map fst]; [apply IH; exact Hrest|].
    constructor; [|apply IH; exact Hrest].
    intros Hin. apply Hnotin.
    apply (items_del_keys k rest k0). exact Hin.
Qed.

(** *** Writing the table *)

(** [__setitem__] changes the table first and then writes it; the table
    keeps the new item also when the write raises. *)
Lemma PersistentDict_setitem_run (key : string) (value : json) (s : state) :
  let table := <[key := value]> (USER_TOKEN_MAP s) in
  PersistentDict_setitem key value s
  = match write_text (json_dumps table) (world s) with
    | Written w =>
        (Ret tt,
         {| USER_TOKEN_MAP := table;
            token_file := Some (json_dumps table); world := w |},
         [WriteText (json_dumps table)])
    | WriteFailed e remains w =>
        (Raise e,
         {| USER_TOKEN_MAP := table; token_file := remains; world := w |},
         [WriteText (json_dumps table)])
    end.
Proof.
  intros table. unfold PersistentDict_setitem, bind, dict_setitem,
    PersistentDict_save.
  cbn [USER_TOKEN_MAP token_file world]. fold table.
  destruct (write_text (json_dumps table) (world s)); reflexivity.
Qed.

(** *** [/token] *)

(** C10. [/token] takes exactly one argument.  With none, or with two or
    more, the only effect is the usage reply: the state (token table and
    file) is the one before and no call to the backend is made.  With
    one argument, that argument is stored as it is under [str(user_id)],
    replacing what was there, and the table is written to the file; the
    confirmation is sent after that, when the write has returned.  When
    the write raises, the handler ends with that exception: the table
    keeps the new token and no confirmation is sent. *)
Theorem token_command_arity (update : Update) (s : state) :
  token_command update [] s
  = (Ret tt, s, [ReplyText "Usage: /token <YOUR_READECK_TOKEN>" None])
  /\ (forall a b rest,
         token_command update (a :: b :: rest) s
         = (Ret tt, s, [ReplyText "Usage: /token <YOUR_READECK_TOKEN>" None]))
  /\ (forall token,
         let key := str_of_int (effective_user_id update) in
         let table := <[key := JStr token]> (USER_TOKEN_MAP s) in
         let content := json_dumps table in
         token_command update [token] s
         = match write_text content (world s) with
           | Written w =>
               (Ret tt,
                {| USER_TOKEN_MAP := table;
                   token_file := Some content; world := w |},
                [WriteText content;
                 ReplyText "Your Readeck token has been saved." None])
           | WriteFailed e remains w =>
               (Raise e,
                {| USER_TOKEN_MAP := table;
                   token_file := remains; world := w |},
                [WriteText content])
           end
         /\ table !! key = Some (JStr token)
         /\ (forall other, other <> key ->
                           table !! other = USER_TOKEN_MAP s !! other)).
Proof.
  split; [reflexivity | split].
  - intros a b rest. reflexivity.
  - intros token key table content. split; [|split].
    + unfold token_command. cbn [list_is_empty length Nat.eqb negb orb].
      unfold bind at 1. cbn [list_index lookup list_lookup ret].
      unfold bind at 1.
      rewrite PersistentDict_setitem_run. fold key table content.
      destruct (write_text content (world s)); reflexivity.
    + apply pydict_lookup_insert_eq.
    + intros other Hne. apply pydict_lookup_insert_ne. congruence.
Qed.

(** *** [/register] *)

(** C4. [/register] with no argument registers [str(user_id)] with
    itself as password; with one argument, [str(user_id)] with that
    password; with two, the given username and password.  With three or
    more arguments the only effect is the usage reply: the state is the
    one before, and no subprocess and no HTTP request is started. *)
Theorem register_command_arity (update : Update) (s : state) :
  let user := str_of_int (effective_user_id update) in
  register_command update [] s = register_and_fetch_token update user user s
  /\ (forall password,
         register_command update [password] s
         = register_and_fetch_token update user password s)
  /\ (forall username password,
         register_command update [username; password] s
         = register_and_fetch_token update username password s)
  /\ (forall a b c rest,
         register_command update (a :: b :: c :: rest) s
         = (Ret tt, s, [ReplyText register_usage None])
         /\ filter is_backend_call
              (events_of (register_command update (a :: b :: c :: rest) s))
            = []).
Proof.
  intros user. unfold register_command.
  split; [reflexivity | split; [|split]].
  - intros password.
    cbn [list_is_empty length Nat.eqb]. unfold bind, list_index, ret.
    cbn [lookup list_lookup].
    subst user.
    destruct (register_and_fetch_token update _ password s) as [[o s'] evs].
    reflexivity.
  - intros username password.
    cbn [list_is_empty length Nat.eqb]. unfold bind, list_index, ret.
    cbn [lookup list_lookup].
    destruct (register_and_fetch_token update username password s)
      as [[o s'] evs].
    reflexivity.
  - intros a b c rest. split; reflexivity.
Qed.

Lemma fetch_token_posts_once (update : Update) (username password : string)
    (s : state) :
  length (filter is_post (events_of (fetch_token update username password s))) = 1.
Proof.
  unfold fetch_token, bind, requests_post.
  destruct (http_post _ _ _ (world s)) as [[r|e] w]; [|reflexivity].
  destruct ((200 <=? status_code r)%Z && (status_code r <? 300)%Z);
    [|reflexivity].
  unfold response_json.
  destruct (json_body r) as [data|]; [|reflexivity].
  unfold ret, json_get.
  destruct data; try reflexivity.
  unfold ret.
  destruct (truthy _); [|reflexivity].
  rewrite PersistentDict_setitem_run. cbn [USER_TOKEN_MAP token_file world].
  destruct (write_text _ w); reflexivity.
Qed.

Lemma register_after_local_failure (update : Update)
    (username password : string) (s : state)
    (p1 : CompletedProcess) (w1 w2 : World) (o2 : outcome CompletedProcess) :
  run_process (command username password) (world s) = (Ret p1, w1) ->
  returncode p1 <> 0%Z ->
  run_process (docker_command username password) w1 = (o2, w2) ->
  let s2 := {| USER_TOKEN_MAP := USER_TOKEN_MAP s;
               token_file := token_file s; world := w2 |} in
  let calls := [SubprocessRun (command username password);
                SubprocessRun (docker_command username password)] in
  register_and_fetch_token update username password s
  = match o2 with
    | Ret p2 =>
        if (returncode p2 =? 0)%Z then
          let exchange := fetch_token update username password s2 in
          (result_of exchange, state_of exchange, calls ++ events_of exchange)
        else
          (Ret tt, s2,
           calls ++ [ReplyText ("Registration failed: " +:+ strip (stderr p2)) None])
    | Raise e => (Raise e, s2, calls)
    end.
Proof.
  intros H1 Hrc1 H2 s2 calls.
  unfold register_and_fetch_token. first_call H1.
  destruct (returncode p1 =? 0)%Z eqn:E1; [apply Z.eqb_eq in E1; contradiction|].
  cbn [negb]. first_call H2. fold s2.
  destruct o2 as [p2|e]; [|reflexivity].
  destruct (returncode p2 =? 0)%Z; cbn [negb]; [|reflexivity].
  destruct (fetch_token update username password s2) as [[o s3] evs3].
  reflexivity.
Qed.

(** When the local tool ends with 0, the container is not started: the
    token exchange follows at once. *)
Lemma register_after_local_success (update : Update)
    (username password : string) (s : state)
    (p1 : CompletedProcess) (w1 : World) :
  run_process (command username password) (world s) = (Ret p1, w1) ->
  returncode p1 = 0%Z ->
  let s1 := {| USER_TOKEN_MAP := USER_TOKEN_MAP s;
               token_file := token_file s; world := w1 |} in
  let exchange := fetch_token update username password s1 in
  register_and_fetch_token update username password s
  = (result_of exchange, state_of exchange,
     SubprocessRun (command username password) :: events_of exchange).
Proof.
  intros H1 Hrc1 s1 exchange.
  unfold register_and_fetch_token. first_call H1. rewrite Hrc1.
  cbn [negb Z.eqb]. fold s1. fold exchange.
  destruct exchange as [[o s2] evs2]. reflexivity.
Qed.

(** An exception of [subprocess.run] for the local tool, such as the one
    for an executable that does not exist, is not handled: the handler
    ends with it, and the container is not started. *)
Lemma register_local_exception (update : Update)
    (username password : string) (s : state) (e : exn) (w1 : World) :
  run_process (command username password) (world s) = (Raise e, w1) ->
  register_and_fetch_token update username password s
  = (Raise e,
     {| USER_TOKEN_MAP := USER_TOKEN_MAP s;
        token_file := token_file s; world := w1 |},
     [SubprocessRun (command username password)]).
Proof.
  intros H1. unfold register_and_fetch_token, bind, subprocess_run.
  rewrite H1. reflexivity.
Qed.

(** The path on which the container is started: the local tool has
    returned, with a non-zero exit code.  The next call is the container,
    and nothing else happens in between.  When the container ends with a
    non-zero exit code too, the handler replies [Registration failed:]
    with the container's stripped stderr and stops: no request to
    [/api/auth], token table and file as before.  When the container ends
    with 0, what follows is the token exchange [fetch_token], which posts
    to [/api/auth] once.  An exception of the container call ends the
    handler with that exception, without a reply. *)
Lemma register_fallback_sequence (update : Update)
    (username password : string) (s : state)
    (p1 : CompletedProcess) (w1 w2 : World) (o2 : outcome CompletedProcess) :
  run_process (command username password) (world s) = (Ret p1, w1) ->
  returncode p1 <> 0%Z ->
  run_process (docker_command username password) w1 = (o2, w2) ->
  let run := register_and_fetch_token update username password s in
  let s2 := {| USER_TOKEN_MAP := USER_TOKEN_MAP s;
               token_file := token_file s; world := w2 |} in
  exists rest,
    events_of run
    = SubprocessRun (command username password)
      :: SubprocessRun (docker_command username password) :: rest
    /\ match o2 with
       | Ret p2 =>
           if (returncode p2 =? 0)%Z then
             rest = events_of (fetch_token update username password s2)
             /\ result_of run = result_of (fetch_token update username password s2)
             /\ state_of run = state_of (fetch_token update username password s2)
             /\ length (filter is_post rest) = 1
           else
             rest = [ReplyText ("Registration failed: " +:+ strip (stderr p2)) None]
             /\ result_of run = Ret tt
             /\ state_of run = s2
             /\ filter is_post (events_of run) = []
       | Raise e => rest = [] /\ result_of run = Raise e /\ state_of run = s2
       end.
Proof.
  intros H1 Hrc1 H2 run s2. subst run.
  rewrite (register_after_local_failure update username password s
             p1 w1 w2 o2 H1 Hrc1 H2).
  fold s2.
  destruct o2 as [p2|e].
  - destruct (returncode p2 =? 0)%Z.
    + eexists. split; [reflexivity|].
      repeat split. apply fetch_token_posts_once.
    + eexists. repeat split; reflexivity.
  - exists []. repeat split; reflexivity.
Qed.

(** *** The token exchange *)

Lemma register_reaches_fetch_token (update : Update)
    (username password : string) (s : state) (w : World) :
  provisioned username password (world s) w ->
  let s1 := {| USER_TOKEN_MAP := USER_TOKEN_MAP s;
               token_file := token_file s; world := w |} in
  let exchange := fetch_token update username password s1 in
  exists calls,
    register_and_fetch_token update username password s
    = (result_of exchange, state_of exchange, calls ++ events_of exchange)
    /\ replies calls = []
    /\ filter is_post calls = [].
Proof.
  intros [(p1 & H1 & Hrc1) | (p1 & w1 & p2 & H1 & Hrc1 & H2 & Hrc2)] s1 exchange.
  - exists [SubprocessRun (command username password)].
    split; [|split; reflexivity].
    apply (register_after_local_success update username password s p1 w H1 Hrc1).
  - exists [SubprocessRun (command username password);
            SubprocessRun (docker_command username password)].
    split; [|split; reflexivity].
    rewrite (register_after_local_failure update username password s
               p1 w1 w (Ret p2) H1 Hrc1 H2).
    rewrite Hrc2. reflexivity.
Qed.

Lemma fetch_token_2xx (update : Update) (username password : string)
    (s : state) (w : World) (r : Response) (members : list (string * json)) :
  http_post (READECK_BASE_URL +:+ "/api/auth")
            [("accept", "application/json"); ("content-type", "application/json")]
            (JObj [("application", JStr "telegram bot");
                   ("username", JStr username);
                   ("password", JStr password)])
            (world s) = (Ret r, w) ->
  (200 <= status_code r < 300)%Z ->
  json_body r = Some (JObj members) ->
  let token := dict_get_or "token" JNull members in
  let key := str_of_int (effective_user_id update) in
  let table := <[key := token]> (USER_TOKEN_MAP s) in
  let post :=
    RequestsPost (READECK_BASE_URL +:+ "/api/auth")
      [("accept", "application/json"); ("content-type", "application/json")]
      (JObj [("application", JStr "telegram bot");
             ("username", JStr username);
             ("password", JStr password)]) in
  fetch_token update username password s
  = if truthy token then
      match write_text (json_dumps table) w with
      | Written w2 =>
          (Ret tt,
           {| USER_TOKEN_MAP := table;
              token_file := Some (json_dumps table); world := w2 |},
           [post; WriteText (json_dumps table);
            ReplyText "Registration successful! Your token has been saved." None])
      | WriteFailed e remains w2 =>
          (Raise e,
           {| USER_TOKEN_MAP := table; token_file := remains; world := w2 |},
           [post; WriteText (json_dumps table)])
      end
    else
      (Ret tt,
       {| USER_TOKEN_MAP := USER_TOKEN_MAP s;
          token_file := token_file s; world := w |},
       [post;
        ReplyText "Registration succeeded but failed to retrieve token." None]).
Proof.
  intros Hpost [Hlo Hhi] Hbody token key table post.
  unfold fetch_token. first_call Hpost.
  assert ((200 <=? status_code r)%Z && (status_code r <? 300)%Z = true) as ->.
  { apply andb_true_intro. split; [apply Z.leb_le | apply Z.ltb_lt]; assumption. }
  unfold response_json. rewrite Hbody.
  unfold bind at 1. unfold ret at 1. unfold bind at 1.
  unfold json_get, ret at 1. fold token.
  destruct (truthy token); [|reflexivity].
  unfold bind at 1. rewrite PersistentDict_setitem_run.
  cbn [USER_TOKEN_MAP token_file world]. fold key table.
  destruct (write_text (json_dumps table) w); reflexivity.
Qed.

(** A 2xx answer whose JSON body is not an object (null, a list, a
    string, a number) has no [get]: the handler ends with
    [AttributeError] after the request, without a reply, and the table
    and its file are as before. *)
Lemma fetch_token_no_object (update : Update) (username password : string)
    (s : state) (w : World) (r : Response) (data : json) :
  http_post (READECK_BASE_URL +:+ "/api/auth")
            [("accept", "application/json"); ("content-type", "application/json")]
            (JObj [("application", JStr "telegram bot");
                   ("username", JStr username);
                   ("password", JStr password)])
            (world s) = (Ret r, w) ->
  (200 <= status_code r < 300)%Z ->
  json_body r = Some data ->
  match data with JObj _ => False | _ => True end ->
  fetch_token update username password s
  = (Raise AttributeError,
     {| USER_TOKEN_MAP := USER_TOKEN_MAP s;
        token_file := token_file s; world := w |},
     [RequestsPost (READECK_BASE_URL +:+ "/api/auth")
        [("accept", "application/json"); ("content-type", "application/json")]
        (JObj [("application", JStr "telegram bot");
               ("username", JStr username);
               ("password", JStr password)])]).
Proof.
  intros Hpost [Hlo Hhi] Hbody Hdata.
  unfold fetch_token. first_call Hpost.
  assert ((200 <=? status_code r)%Z && (status_code r <? 300)%Z = true) as ->.
  { apply andb_true_intro. split; [apply Z.leb_le | apply Z.ltb_lt]; assumption. }
  unfold response_json. rewrite Hbody.
  destruct data; try reflexivity. contradiction.
Qed.

(** Whatever [/api/auth] answers, the token exchange leaves the table and
    its file as they were, unless the answer carries a token that Python
    takes for true, which is then stored under the requester's id. *)
Lemma fetch_token_table (update : Update) (username password : string)
    (s : state) :
  let after := state_of (fetch_token update username password s) in
  (USER_TOKEN_MAP after = USER_TOKEN_MAP s /\ token_file after = token_file s)
  \/ (exists token,
         truthy token = true
         /\ USER_TOKEN_MAP after
            = <[str_of_int (effective_user_id update) := token]>
                (USER_TOKEN_MAP s)).
Proof.
  unfold fetch_token, bind, requests_post.
  destruct (http_post _ _ _ (world s)) as [[r|e] w]; [|left; split; reflexivity].
  destruct ((200 <=? status_code r)%Z && (status_code r <? 300)%Z);
    [|left; split; reflexivity].
  unfold response_json.
  destruct (json_body r) as [data|]; [|left; split; reflexivity].
  unfold ret, json_get.
  destruct data as [| | | | |members]; try (left; split; reflexivity).
  unfold ret.
  destruct (truthy (dict_get_or "token" JNull members)) eqn:Htoken.
  - right. exists (dict_get_or "token" JNull members).
    split; [exact Htoken|].
    rewrite PersistentDict_setitem_run. cbn [USER_TOKEN_MAP token_file world].
    destruct (write_text _ w); reflexivity.
  - left. split; reflexivity.
Qed.

(** Provisioning succeeded, and [/api/auth] answers with a 2xx status and
    a JSON object.  When the object has no [token] member, or one that
    Python takes for false (null, the empty string), the handler replies
    that registration succeeded but the token could not be retrieved, and
    the token table and its file are as before.  Otherwise the token is
    stored in the table under [str(update.effective_user.id)], whatever
    [username] is, and the table is written: when the write returns, the
    file holds the table and the handler replies that the token has been
    saved; when it raises, the handler ends with that exception and
    without a reply. *)
Lemma token_exchange_result (update : Update) (username password : string)
    (s : state) (w w' : World) (r : Response)
    (members : list (string * json)) :
  provisioned username password (world s) w ->
  http_post (READECK_BASE_URL +:+ "/api/auth")
            [("accept", "application/json"); ("content-type", "application/json")]
            (JObj [("application", JStr "telegram bot");
                   ("username", JStr username);
                   ("password", JStr password)])
            w = (Ret r, w') ->
  (200 <= status_code r < 300)%Z ->
  json_body r = Some (JObj members) ->
  let run := register_and_fetch_token update username password s in
  let token := dict_get_or "token" JNull members in
  let key := str_of_int (effective_user_id update) in
  let table := <[key := token]> (USER_TOKEN_MAP s) in
  if truthy token then
    USER_TOKEN_MAP (state_of run) = table
    /\ match write_text (json_dumps table) w' with
       | Written _ =>
           result_of run = Ret tt
           /\ token_file (state_of run) = Some (json_dumps table)
           /\ replies (events_of run)
              = ["Registration successful! Your token has been saved."]
       | WriteFailed e remains _ =>
           result_of run = Raise e
           /\ token_file (state_of run) = remains
           /\ replies (events_of run) = []
       end
  else
    result_of run = Ret tt
    /\ USER_TOKEN_MAP (state_of run) = USER_TOKEN_MAP s
    /\ token_file (state_of run) = token_file s
    /\ replies (events_of run)
       = ["Registration succeeded but failed to retrieve token."].
Proof.
  intros Hprov Hpost Hstatus Hbody run token key table.
  destruct (register_reaches_fetch_token update username password s w Hprov)
    as (calls & Hrun & Hquiet & _).
  subst run. rewrite Hrun.
  rewrite (fetch_token_2xx update username password
             {| USER_TOKEN_MAP := USER_TOKEN_MAP s;
                token_file := token_file s; world := w |}
             w' r members Hpost Hstatus Hbody).
  fold token. fold key. cbn [USER_TOKEN_MAP token_file world]. fold table.
  unfold replies in *.
  destruct (truthy token); [destruct (write_text (json_dumps table) w')|];
    cbn [result_of state_of events_of fst snd USER_TOKEN_MAP token_file];
    rewrite flat_map_app, Hquiet; repeat split; reflexivity.
Qed.

(** *** Saving a bookmark *)

(** C8, as the code has it.  The submission is answered with 202 and a
    non-empty [Bookmark-Id] header, and the lookup of the details with a
    status other than 200.  Then the handler ends normally after the two
    requests with the single reply [Saved bookmark but failed to retrieve
    details.]: the bookmark is reported as saved, without its details.
    The reply is this fixed text; it names neither the bookmark id nor a
    [md_] command. *)
Theorem save_bookmark_details_unavailable (update : Update) (url : string)
    (title : option string) (labels : list string) (token : json)
    (s : state) (r details : Response) (w1 w2 : World) (bookmark_id : string) :
  http_post (READECK_BASE_URL +:+ "/api/bookmarks") (bookmark_headers token)
            (bookmark_data url title labels) (world s) = (Ret r, w1) ->
  status_code r = 202%Z ->
  headers_get r "Bookmark-Id" = Some bookmark_id ->
  is_empty bookmark_id = false ->
  http_get (READECK_BASE_URL +:+ "/api/bookmarks/" +:+ bookmark_id)
           (bookmark_headers token) w1 = (Ret details, w2) ->
  status_code details <> 200%Z ->
  save_bookmark update url title labels token s
  = (Ret tt,
     {| USER_TOKEN_MAP := USER_TOKEN_MAP s;
        token_file := token_file s; world := w2 |},
     [RequestsPost (READECK_BASE_URL +:+ "/api/bookmarks")
        (bookmark_headers token) (bookmark_data url title labels);
      RequestsGet (READECK_BASE_URL +:+ "/api/bookmarks/" +:+ bookmark_id)
        (bookmark_headers token);
      ReplyText "Saved bookmark but failed to retrieve details." None])
  /\ str_contains "md_" "Saved bookmark but failed to retrieve details." = false.
Proof.
  intros Hpost H202 Hid Hne Hget H200.
  split; [|reflexivity].
  unfold save_bookmark. first_call Hpost.
  rewrite H202. cbn [Z.eqb Pos.eqb]. rewrite Hid, Hne. cbn [negb].
  first_call Hget.
  destruct (status_code details =? 200)%Z eqn:E;
    [apply Z.eqb_eq in E; contradiction|].
  reflexivity.
Qed.

(** *** Text messages *)

Lemma match_url_here_scheme (s u : string) :
  match_url_here s = Some u ->
  (String.prefix "https://" s || String.prefix "http://" s = true)
  /\ is_empty u = false.
Proof.
  unfold match_url_here.
  destruct (String.prefix "https://" s) eqn:Hs.
  - destruct (is_empty (take_while _ (str_drop (String.length "https://") s))).
    + destruct (String.prefix "http://" s); [|discriminate].
      destruct (is_empty _); [discriminate|].
      intros [= <-]. split; reflexivity.
    + intros [= <-]. split; reflexivity.
  - destruct (String.prefix "http://" s); [|discriminate].
    destruct (is_empty _); [discriminate|].
    intros [= <-]. split; reflexivity.
Qed.

Lemma search_url_scheme (s u : string) :
  search_url s = Some u -> has_scheme s = true /\ is_empty u = false.
Proof.
  induction s as [|c s IH].
  - cbn. discriminate.
  - cbn [search_url has_scheme].
    destruct (match_url_here (String c s)) as [v|] eqn:Hm.
    + intros [= <-]. apply match_url_here_scheme in Hm as [-> Hv].
      split; [reflexivity | exact Hv].
    + intros Hs. apply IH in Hs as [-> Hu].
      split; [|exact Hu].
      destruct (String.prefix "https://" (String c s)
                || String.prefix "http://" (String c s)); reflexivity.
Qed.

(** C9, as the code has it.  A text message is answered in this order.
    The stored token is looked up first: without one that Python takes for
    true, the only reply is the text asking for a token, and the message
    is not parsed.  With a token, a text in which the parser finds a URL
    is passed to [save_bookmark] with that URL, the parsed title and
    labels and the token; a text with [http://] or [https://] but no URL
    gets [I couldn't find a valid URL.]; any other text gets [I don't
    recognize this input.]. *)
Theorem handle_message_order (update : Update) (s : state) :
  let message := strip (message_text update) in
  let token :=
    default JNull
      (USER_TOKEN_MAP s !! str_of_int (effective_user_id update)) in
  handle_message update s
  = if truthy token then
      match search_url message with
      | Some url =>
          save_bookmark update url
            (snd (fst (extract_url_title_labels message)))
            (snd (extract_url_title_labels message)) token s
      | None =>
          (Ret tt, s,
           [ReplyText
              (if has_scheme message then "I couldn't find a valid URL."
               else "I don't recognize this input." +:+ nl +:+
                    "After saving a bookmark, use the provided /md_<bookmark_id> command to view its markdown.")
              None])
      end
    else (Ret tt, s, [ReplyText no_token_message None]).
Proof.
  intros message token.
  unfold handle_message. fold message.
  unfold bind at 1. unfold PersistentDict_get at 1. fold token.
  destruct (truthy token); cbn [negb]; [|reflexivity].
  unfold extract_url_title_labels.
  destruct (search_url message) as [url|] eqn:Hurl.
  - apply search_url_scheme in Hurl as [-> Hne].
    cbn [truthy_str fst snd default]. rewrite Hne. cbn [negb app].
    destruct (save_bookmark _ _ _ _ _ s) as [[o s'] evs]. reflexivity.
  - cbn [truthy_str negb app].
    destruct (has_scheme message); reflexivity.
Qed.

(** *** [PersistentDict] *)

Lemma dict_update_lookup (members : list (string * json))
    (d : pydict) (k : string) :
  dict_update d members !! k
  = match dict_get k members with
    | Some v => Some v
    | None => d !! k
    end.
Proof.
  revert d. induction members as [|[k0 v0] rest IH]; intros d.
  - reflexivity.
  - change (dict_update d ((k0, v0) :: rest))
      with (dict_update (<[k0 := v0]> d) rest).
    rewrite IH. cbn [dict_get].
    destruct (dict_get k rest) as [v|]; [reflexivity|].
    destruct (String.eqb k0 k) eqn:E.
    + apply String.eqb_eq in E as ->. apply pydict_lookup_insert_eq.
    + apply String.eqb_neq in E. apply pydict_lookup_insert_ne. exact E.
Qed.

(** A table built from the file has, under every key, what the table
    had that was written, provided that [json.loads] reads what
    [json.dumps] wrote of it as an object with the same members. *)
Lemma PersistentDict_reload (table : pydict)
    (members : list (string * json)) (k : string) :
  json_loads (json_dumps table) = Some (JObj members) ->
  (forall k, dict_get k members = table !! k) ->
  PersistentDict_init (Some (json_dumps table)) !! k = table !! k.
Proof.
  intros Hload Hsame. unfold PersistentDict_init. rewrite Hload.
  rewrite dict_update_lookup, Hsame, pydict_lookup_empty.
  destruct (table !! k); reflexivity.
Qed.

(** In the table on which it was done, [d[u] = c] is seen by [d.get(u)]
    whether or not the write returned: the item is set before the table
    is written. *)
Lemma setitem_in_memory (u : string) (c : json) (s : state) :
  let after := PersistentDict_setitem u c s in
  USER_TOKEN_MAP (state_of after) = <[u := c]> (USER_TOKEN_MAP s)
  /\ events_of after = [WriteText (json_dumps (<[u := c]> (USER_TOKEN_MAP s)))]
  /\ result_of (PersistentDict_get u (state_of after)) = Ret c.
Proof.
  intros after. subst after. rewrite PersistentDict_setitem_run.
  destruct (write_text _ (world s));
    cbn [state_of events_of result_of fst snd USER_TOKEN_MAP PersistentDict_get];
    rewrite pydict_lookup_insert_eq; repeat split; reflexivity.
Qed.

(** C6. A [d[u] = c] whose write returns ends normally, having written
    the whole new table over the file, and [d.get(u)] then returns [c]: in
    the same table, and in a table that a later process builds from the
    file, provided that [json.loads] reads what [json.dumps] wrote of this
    table as an object with the same members.  ([__setitem__] raises when
    the write raises; that set has not been performed.) *)
Theorem set_then_get (u : string) (c : json) (s : state) (w w' : World)
    (members : list (string * json)) :
  let table := <[u := c]> (USER_TOKEN_MAP s) in
  let after := PersistentDict_setitem u c s in
  let reloaded := startup (token_file (state_of after)) w in
  write_text (json_dumps table) (world s) = Written w' ->
  json_loads (json_dumps table) = Some (JObj members) ->
  (forall k, dict_get k members = table !! k) ->
  result_of after = Ret tt
  /\ events_of after = [WriteText (json_dumps table)]
  /\ token_file (state_of after) = Some (json_dumps table)
  /\ result_of (PersistentDict_get u (state_of after)) = Ret c
  /\ (forall k, USER_TOKEN_MAP reloaded !! k = table !! k)
  /\ result_of (PersistentDict_get u reloaded) = Ret c.
Proof.
  intros table after reloaded Hwrite Hload Hsame.
  assert (Hafter : after
            = (Ret tt,
               {| USER_TOKEN_MAP := table;
                  token_file := Some (json_dumps table); world := w' |},
               [WriteText (json_dumps table)])).
  { unfold after. rewrite PersistentDict_setitem_run. fold table.
    rewrite Hwrite. reflexivity. }
  assert (Hreload : forall k, USER_TOKEN_MAP reloaded !! k = table !! k).
  { intros k. unfold reloaded. rewrite Hafter.
    cbn [state_of fst snd token_file startup USER_TOKEN_MAP].
    apply (PersistentDict_reload table members k Hload Hsame). }
  rewrite Hafter in *.
  cbn [result_of state_of events_of fst snd token_file USER_TOKEN_MAP
       PersistentDict_get].
  repeat split; try reflexivity.
  - unfold table. rewrite pydict_lookup_insert_eq. reflexivity.
  - exact Hreload.
  - rewrite Hreload. unfold table. rewrite pydict_lookup_insert_eq. reflexivity.
Qed.

(** *** Chunks of a long message *)

Lemma str_take_drop (n : nat) (s : string) : str_take n s +:+ str_drop n s = s.
Proof.
  revert s. induction n as [|n IH]; intros [|c s]; try reflexivity.
  cbn [str_take str_drop]. rewrite append_String, IH. reflexivity.
Qed.

Lemma length_str_take (n : nat) (s : string) :
  String.length (str_take n s) = Nat.min n (String.length s).
Proof.
  revert s. induction n as [|n IH]; intros [|c s]; cbn; try reflexivity.
  rewrite IH. reflexivity.
Qed.

Lemma str_drop_drop (a b : nat) (s : string) :
  str_drop b (str_drop a s) = str_drop (a + b) s.
Proof.
  revert s. induction a as [|a IH]; intros s.
  - reflexivity.
  - destruct s as [|c s]; cbn.
    + destruct b; reflexivity.
    + apply IH.
Qed.

Lemma str_drop_all (n : nat) (s : string) :
  String.length s <= n -> str_drop n s = EmptyString.
Proof.
  revert s. induction n as [|n IH]; intros [|c s]; cbn; intros H;
    try reflexivity; try lia.
  apply IH. lia.
Qed.

Lemma ceil_div_zero (d : nat) : ceil_div 0 d = 0.
Proof.
  unfold ceil_div. destruct d as [|d]; [reflexivity|].
  apply Nat.div_small. lia.
Qed.

Lemma ceil_div_step (n d : nat) :
  0 < d -> 0 < n -> ceil_div n d = S (ceil_div (n - d) d).
Proof.
  intros Hd Hn. unfold ceil_div.
  destruct (Nat.le_gt_cases d n) as [Hle|Hlt].
  - replace (n + d - 1) with ((n - d + d - 1) + 1 * d) by lia.
    rewrite Nat.div_add by lia. lia.
  - replace (n - d) with 0 by lia.
    replace (n + d - 1) with ((n - 1) + 1 * d) by lia.
    rewrite Nat.div_add by lia.
    rewrite (Nat.div_small (n - 1)) by lia.
    rewrite (Nat.div_small (0 + d - 1)) by lia. reflexivity.
Qed.

(** [range(start, stop, step)] is [start, start + step, ...], with as many
    elements as steps fit below [stop]. *)
Lemma range_from_spec (fuel start stop step : nat) :
  0 < step -> stop - start <= fuel ->
  range_from fuel start stop step
  = map (fun k => start + k * step) (seq 0 (ceil_div (stop - start) step)).
Proof.
  intros Hstep. revert start.
  induction fuel as [|fuel IH]; intros start Hfuel.
  - replace (stop - start) with 0 by lia. rewrite ceil_div_zero. reflexivity.
  - cbn [range_from]. destruct (start <? stop)%nat eqn:E.
    + apply Nat.ltb_lt in E.
      rewrite (ceil_div_step (stop - start) step) by lia.
      rewrite IH by lia.
      cbn [seq map]. f_equal; [lia|].
      rewrite <- seq_shift, map_map.
      replace (stop - (start + step)) with (stop - start - step) by lia.
      apply map_ext. intros k. lia.
    + apply Nat.ltb_ge in E.
      replace (stop - start) with 0 by lia. rewrite ceil_div_zero. reflexivity.
Qed.

Lemma chunks_with_spec (lim : nat) (body : string) :
  0 < lim ->
  chunks_with lim body
  = map (fun k => str_slice body (k * lim) (k * lim + lim))
        (seq 0 (ceil_div (String.length body) lim)).
Proof.
  intros Hlim. unfold chunks_with, py_range.
  rewrite range_from_spec by lia.
  rewrite map_map, Nat.sub_0_r. reflexivity.
Qed.

Lemma concat_slices (lim : nat) (body : string) (fuel start : nat) :
  0 < lim -> String.length body - start <= fuel ->
  str_concat
    (map (fun i => str_slice body i (i + lim))
         (range_from fuel start (String.length body) lim))
  = str_drop start body.
Proof.
  intros Hlim. revert start.
  induction fuel as [|fuel IH]; intros start Hfuel.
  - cbn. symmetry. apply str_drop_all. lia.
  - cbn [range_from]. destruct (start <? String.length body)%nat eqn:E.
    + cbn [map str_concat]. rewrite IH by (apply Nat.ltb_lt in E; lia).
      unfold str_slice. replace (start + lim - start) with lim by lia.
      rewrite <- str_drop_drop. apply str_take_drop.
    + apply Nat.ltb_ge in E. cbn. symmetry. apply str_drop_all. lia.
Qed.

Lemma chunks_with_concat (lim : nat) (body : string) :
  0 < lim -> str_concat (chunks_with lim body) = body.
Proof.
  intros Hlim. unfold chunks_with, py_range.
  rewrite concat_slices by lia. reflexivity.
Qed.

Lemma chunks_with_bounded (lim : nat) (body : string) :
  Forall (fun chunk => String.length chunk <= lim) (chunks_with lim body).
Proof.
  unfold chunks_with. apply List.Forall_forall. intros chunk Hin.
  apply in_map_iff in Hin as (start & <- & _).
  unfold str_slice. rewrite length_str_take. lia.
Qed.

Lemma chunks_with_count (lim : nat) (body : string) :
  0 < lim ->
  length (chunks_with lim body) = ceil_div (String.length body) lim.
Proof.
  intros Hlim. rewrite chunks_with_spec by assumption.
  rewrite length_map, length_seq. reflexivity.
Qed.

Lemma limit_positive : 0 < limit.
Proof. apply Nat.ltb_lt. vm_compute. reflexivity. Qed.

Lemma for_each_replies {A} (f : A -> string) (l : list A) (s : state) :
  for_each l (fun x => reply_text (f x) None) s
  = (Ret tt, s, map (fun x => ReplyText (f x) None) l).
Proof.
  induction l as [|x l IH]; [reflexivity|].
  cbn [for_each map]. unfold bind at 1. unfold reply_text at 1.
  rewrite IH. reflexivity.
Qed.

Lemma replies_of_reply_texts (e : event) (l : list string) :
  is_reply e = false ->
  replies (e :: map (fun chunk => ReplyText chunk None) l) = l.
Proof.
  intros He. unfold replies. cbn [flat_map].
  replace (match e with ReplyText b _ => [b] | _ => [] end) with (@nil string)
    by (destruct e; (reflexivity || discriminate)).
  cbn [app]. induction l as [|chunk rest IH]; [reflexivity|].
  cbn [map flat_map app]. rewrite IH. reflexivity.
Qed.

Lemma send_long_message_chunks (update : Update) (body : string) (s : state) :
  send_long_message update body s
  = (Ret tt, s, map (fun chunk => ReplyText chunk None) (chunks_with limit body)).
Proof.
  unfold send_long_message, chunks_with.
  rewrite (for_each_replies (fun start => str_slice body start (start + limit))).
  rewrite map_map. reflexivity.
Qed.

(** C7. The article is fetched with status 200.  Then the handler sends,
    after the request and in this order, the slices
    [text[k*limit : k*limit+limit]] for [k = 0, 1, ...,
    ceil(len(text)/limit) - 1] and nothing else: consecutive pieces of the
    text that neither overlap nor leave a gap.  Each is at most [limit]
    characters long, [limit] is below the 4096 of Telegram, there are
    [ceil(len(text)/limit)] of them, and joined they are the text. *)
Theorem article_chunks (update : Update) (bookmark_id : string) (token : json)
    (s : state) (r : Response) (w : World) :
  http_get (READECK_BASE_URL +:+ "/api/bookmarks/" +:+ bookmark_id
            +:+ "/article.md")
           (bearer_headers token "application/epub+zip") (world s)
  = (Ret r, w) ->
  status_code r = 200%Z ->
  let sent := chunks_with limit (text r) in
  replies (events_of (fetch_article_markdown update bookmark_id token s)) = sent
  /\ result_of (fetch_article_markdown update bookmark_id token s) = Ret tt
  /\ sent = map (fun k => str_slice (text r) (k * limit) (k * limit + limit))
                (seq 0 (ceil_div (String.length (text r)) limit))
  /\ str_concat sent = text r
  /\ Forall (fun chunk => String.length chunk <= limit) sent
  /\ length sent = ceil_div (String.length (text r)) limit
  /\ limit < TELEGRAM_MESSAGE_LIMIT.
Proof.
  intros Hget H200 sent.
  assert (Hrun :
    fetch_article_markdown update bookmark_id token s
    = (Ret tt,
       {| USER_TOKEN_MAP := USER_TOKEN_MAP s;
          token_file := token_file s; world := w |},
       RequestsGet (READECK_BASE_URL +:+ "/api/bookmarks/" +:+ bookmark_id
                    +:+ "/article.md")
                   (bearer_headers token "application/epub+zip")
       :: map (fun chunk => ReplyText chunk None) sent)).
  { unfold fetch_article_markdown. first_call Hget.
    rewrite H200. cbn [Z.eqb Pos.eqb].
    rewrite send_long_message_chunks. reflexivity. }
  rewrite Hrun. cbn [events_of result_of fst snd].
  split; [|split; [reflexivity|split; [|split; [|split; [|split]]]]].
  - apply replies_of_reply_texts. reflexivity.
  - apply chunks_with_spec, limit_positive.
  - apply chunks_with_concat, limit_positive.
  - apply chunks_with_bounded.
  - apply chunks_with_count, limit_positive.
  - apply Nat.ltb_lt. vm_compute. reflexivity.
Qed.

(** ** Further properties *)

(** *** The parser *)

Lemma take_while_all (p : ascii -> bool) (s : string) :
  str_forall p s = true -> take_while p s = s.
Proof.
  induction s as [|c s IH]; [reflexivity|].
  cbn [str_forall take_while]. intros H.
  apply andb_prop in H as [-> H]. rewrite IH by exact H. reflexivity.
Qed.

Lemma str_drop_app (a b : string) : str_drop (String.length a) (a +:+ b) = b.
Proof.
  induction a as [|c a IH]; [reflexivity|].
  rewrite append_String. exact IH.
Qed.

(** At the start of [s] the pattern matches exactly when [s] starts with
    [http://] or [https://] and a character that is not white space
    follows. *)
Lemma match_url_here_none (s : string) :
  match_url_here s = None <->
  (forall scheme c rest,
      scheme = "http://" \/ scheme = "https://" ->
      s = scheme +:+ String c rest -> is_space c = true).
Proof.
  split.
  - intros Hnone scheme c rest Hscheme ->.
    destruct (is_space c) eqn:Hc; [reflexivity|exfalso].
    unfold match_url_here in Hnone.
    destruct Hscheme as [-> | ->].
    + change (String.prefix "https://" ("http://" +:+ String c rest)) with false
        in Hnone.
      rewrite prefix_app, str_drop_app in Hnone.
      cbn [take_while] in Hnone. rewrite Hc in Hnone. discriminate.
    + rewrite prefix_app, str_drop_app in Hnone.
      cbn [take_while] in Hnone. rewrite Hc in Hnone. discriminate.
  - intros Hall. unfold match_url_here.
    assert (Hattempt : forall scheme,
      scheme = "http://" \/ scheme = "https://" ->
      (if String.prefix scheme s
       then
         if is_empty (take_while (fun c => negb (is_space c))
                                 (str_drop (String.length scheme) s))
         then None
         else Some (scheme +:+ take_while (fun c => negb (is_space c))
                                 (str_drop (String.length scheme) s))
       else @None string) = None).
    { intros scheme Hscheme.
      destruct (String.prefix scheme s) eqn:Hp; [|reflexivity].
      apply prefix_split in Hp.
      destruct (str_drop (String.length scheme) s) as [|c rest] eqn:Hd;
        [reflexivity|].
      cbn [take_while]. rewrite (Hall scheme c rest Hscheme Hp). reflexivity. }
    rewrite (Hattempt "https://") by (right; reflexivity).
    apply (Hattempt "http://"). left; reflexivity.
Qed.

Lemma search_url_none (s : string) :
  search_url s = None <-> (forall k, match_url_here (str_drop k s) = None).
Proof.
  induction s as [|c s IH].
  - split; [intros _ [|k]; reflexivity | reflexivity].
  - cbn [search_url]. split.
    + destruct (match_url_here (String c s)) eqn:Hm; [discriminate|].
      intros Hs [|k]; [exact Hm|]. apply IH. exact Hs.
    + intros Hall. pose proof (Hall 0) as H0. cbn [str_drop] in H0.
      rewrite H0. apply IH. intros k. apply (Hall (S k)).
Qed.

Lemma search_url_leftmost (s u : string) :
  search_url s = Some u ->
  exists before rest,
    s = before +:+ u +:+ rest
    /\ match_url_here (str_drop (String.length before) s) = Some u
    /\ (forall k, k < String.length before ->
                  match_url_here (str_drop k s) = None).
Proof.
  induction s as [|c s IH]; cbn [search_url].
  - cbn. discriminate.
  - destruct (match_url_here (String c s)) as [v|] eqn:Hm.
    + intros [= <-].
      destruct (match_url_here_shape _ _ Hm) as (rest & Hs & _).
      exists EmptyString, rest. split; [exact Hs|]. split; [exact Hm|].
      intros k Hk. cbn in Hk. lia.
    + intros Hs. apply IH in Hs as (before & rest & Heq & Hat & Hleft).
      exists (String c before), rest. split; [rewrite Heq at 1; reflexivity|].
      split; [exact Hat|].
      intros [|k] Hk; [exact Hm|]. apply Hleft. cbn in Hk. lia.
Qed.

(** X1. The URL that the parser returns is a piece of the text that starts
    with [http://] or [https://], has no white space in it and ends where
    the text ends or white space follows; and it is the first such piece:
    the pattern matches at no earlier position of the text. *)
Theorem parsed_url_is_first_token (body url : string) :
  fst (fst (extract_url_title_labels body)) = Some url ->
  exists before rest,
    body = before +:+ url +:+ rest
    /\ (String.prefix "http://" url || String.prefix "https://" url = true)
    /\ str_forall (fun c => negb (is_space c)) url = true
    /\ ends_or_starts_with is_space rest = true
    /\ (forall k, k < String.length before ->
                  match_url_here (str_drop k body) = None).
Proof.
  unfold extract_url_title_labels.
  destruct (search_url body) as [found|] eqn:Hs; [|discriminate].
  cbn [fst]. intros [= <-].
  destruct (search_url_leftmost _ _ Hs) as (before & rest & Heq & Hat & Hleft).
  destruct (match_url_here_shape _ _ Hat) as (rest' & Heq' & Hscheme & Hink & Hend).
  exists before, rest. repeat split; try assumption.
  assert (rest' = rest) as <-; [|exact Hend].
  rewrite Heq in Heq' at 1. rewrite str_drop_app in Heq'.
  clear - Heq'. induction found as [|c found IH].
  - symmetry. exact Heq'.
  - rewrite !append_String in Heq'. injection Heq' as Heq'. apply IH, Heq'.
Qed.

(** X2. The parser returns no URL, and then neither title nor labels,
    exactly when every [http://] and [https://] of the text is followed by
    white space or by the end of the text. *)
Theorem parse_none_iff (body : string) :
  extract_url_title_labels body = (None, None, []) <->
  (forall before scheme c rest,
      scheme = "http://" \/ scheme = "https://" ->
      body = before +:+ scheme +:+ String c rest -> is_space c = true).
Proof.
  assert (Hextract :
    extract_url_title_labels body = (None, None, []) <-> search_url body = None).
  { unfold extract_url_title_labels.
    destruct (search_url body); split; (reflexivity || discriminate). }
  rewrite Hextract, search_url_none. split.
  - intros Hnone before scheme c rest Hscheme Hbody.
    specialize (Hnone (String.length before)).
    rewrite Hbody, str_drop_app in Hnone.
    apply (proj1 (match_url_here_none _) Hnone scheme c rest Hscheme).
    reflexivity.
  - intros Hall k. apply match_url_here_none.
    intros scheme c rest Hscheme Hk.
    apply (Hall (str_take k body) scheme c rest Hscheme).
    rewrite <- Hk. symmetry. apply str_take_drop.
Qed.

Lemma lstrip_first (s : string) :
  lstrip s = EmptyString \/ is_ink (first_char (lstrip s)) = true.
Proof.
  induction s as [|c s IH]; [left; reflexivity|].
  cbn [lstrip]. destruct (is_space c) eqn:Hc; [exact IH|].
  right. cbn. rewrite Hc. reflexivity.
Qed.

Lemma rstrip_last (s : string) :
  rstrip s = EmptyString \/ is_ink (last_char (rstrip s)) = true.
Proof.
  induction s as [|c s IH]; [left; reflexivity|].
  cbn [rstrip]. destruct (rstrip s) as [|d r].
  - destruct (is_space c) eqn:Hc; [left; reflexivity|].
    right. cbn. rewrite Hc. reflexivity.
  - right. destruct IH as [IH|IH]; [discriminate|].
    cbn [last_char] in *. destruct (last_char r); exact IH.
Qed.

Lemma rstrip_first (s : string) :
  rstrip s <> EmptyString -> first_char (rstrip s) = first_char s.
Proof.
  destruct s as [|c s]; [reflexivity|].
  cbn [rstrip]. destruct (rstrip s); [|reflexivity].
  destruct (is_space c); [contradiction | reflexivity].
Qed.

(** What [strip] returns is empty, or starts and ends with a character
    that is not white space. *)
Lemma strip_trimmed (s : string) :
  strip s = EmptyString
  \/ (is_ink (first_char (strip s)) = true
      /\ is_ink (last_char (strip s)) = true).
Proof.
  unfold strip.
  destruct (rstrip_last (lstrip s)) as [He|Hlast]; [left; exact He|].
  right. split; [|exact Hlast].
  rewrite rstrip_first.
  - destruct (lstrip_first s) as [He|Hfirst]; [|exact Hfirst].
    rewrite He in Hlast. discriminate.
  - intros He. rewrite He in Hlast. discriminate.
Qed.

(** X3. A title that the parser returns starts and ends with a character
    that is not white space, so it is not empty; every label is a
    non-empty run of letters, digits and underscores, without its [+];
    and without URL there is neither title nor label. *)
Theorem parsed_title_and_labels (body : string) :
  let parsed := extract_url_title_labels body in
  match snd (fst parsed) with
  | Some title =>
      is_ink (first_char title) = true /\ is_ink (last_char title) = true
  | None => True
  end
  /\ Forall (fun w => is_empty w = false /\ str_forall is_word w = true)
            (snd parsed)
  /\ match fst (fst parsed) with
     | Some _ => True
     | None => snd (fst parsed) = None /\ snd parsed = []
     end.
Proof.
  unfold extract_url_title_labels.
  destruct (search_url body) as [found|];
    [|cbn; repeat split; constructor].
  cbn [fst snd]. split; [|split; [apply findall_from_words | exact I]].
  match goal with |- context [is_empty (strip ?x)] =>
    destruct (strip_trimmed x) as [He|Htrim] end.
  - rewrite He. exact I.
  - destruct (strip _); [destruct Htrim; discriminate | exact Htrim].
Qed.

Lemma prefix_refl (s : string) : String.prefix s s = true.
Proof.
  induction s as [|c s IH]; [reflexivity|].
  cbn [String.prefix]. destruct (ascii_dec c c); [exact IH | contradiction].
Qed.

Lemma remove_from_skipped (old s : string) (skip : nat) :
  String.length s <= skip -> remove_from old skip s = EmptyString.
Proof.
  revert skip. induction s as [|c s IH]; intros skip H; [reflexivity|].
  cbn [String.length] in H. destruct skip as [|k]; [lia|].
  cbn [remove_from]. apply IH. lia.
Qed.

Lemma str_remove_self (s : string) : str_remove s s = EmptyString.
Proof.
  unfold str_remove. destruct s as [|c s]; [reflexivity|].
  cbn [is_empty remove_from]. rewrite prefix_refl.
  apply remove_from_skipped. cbn. lia.
Qed.

Lemma search_url_bare (scheme run : string) :
  scheme = "http://" \/ scheme = "https://" ->
  is_empty run = false ->
  str_forall (fun c => negb (is_space c)) run = true ->
  search_url (scheme +:+ run) = Some (scheme +:+ run).
Proof.
  intros Hscheme Hrun Hink.
  assert (Hhere : match_url_here (scheme +:+ run) = Some (scheme +:+ run)).
  { unfold match_url_here. destruct Hscheme as [-> | ->].
    - change (String.prefix "https://" ("http://" +:+ run)) with false.
      rewrite prefix_app, str_drop_app, take_while_all, Hrun by exact Hink.
      reflexivity.
    - rewrite prefix_app, str_drop_app, take_while_all, Hrun by exact Hink.
      reflexivity. }
  destruct Hscheme as [-> | ->]; rewrite !append_String in *;
    cbn [search_url]; rewrite Hhere; reflexivity.
Qed.

(** X4. A text that is a URL and nothing else, [http://] or [https://]
    and then at least one character, none of them white space, parses to
    that URL with no title and no labels. *)
Theorem parse_bare_url (scheme run : string) :
  scheme = "http://" \/ scheme = "https://" ->
  is_empty run = false ->
  str_forall (fun c => negb (is_space c)) run = true ->
  extract_url_title_labels (scheme +:+ run) = (Some (scheme +:+ run), None, []).
Proof.
  intros Hscheme Hrun Hink. unfold extract_url_title_labels.
  rewrite (search_url_bare scheme run Hscheme Hrun Hink).
  rewrite str_remove_self. reflexivity.
Qed.

(** *** The token table and its file *)

Lemma dict_get_app (k : string) (a b : list (string * json)) :
  dict_get k (a ++ b)
  = match dict_get k b with
    | Some v => Some v
    | None => dict_get k a
    end.
Proof.
  induction a as [|[k0 v0] a IH]; cbn [app dict_get].
  - destruct (dict_get k b); reflexivity.
  - rewrite IH. destruct (dict_get k b); reflexivity.
Qed.

Lemma dict_get_absent (k : string) (members : list (string * json)) :
  (forall v, ~ In (k, v) members) -> dict_get k members = None.
Proof.
  induction members as [|[k0 v0] rest IH]; intros Habsent; [reflexivity|].
  cbn [dict_get]. rewrite IH.
  - destruct (String.eqb k0 k) eqn:E; [|reflexivity].
    apply String.eqb_eq in E as ->. exfalso.
    apply (Habsent v0). left. reflexivity.
  - intros v Hin. apply (Habsent v). right. exact Hin.
Qed.

(** X5. The table that a process starts with.  Without the file, with a
    file that [json.loads] cannot read, or with one that holds something
    else than an object, the table is empty and nothing is raised.  With
    an object, the table has the members of the object: a name that the
    object does not have is not in the table, and a name has the value of
    its last member in the object. *)
Theorem persistent_dict_load (file : option string) :
  match file with
  | None => PersistentDict_init file = ∅
  | Some content =>
      match json_loads content with
      | Some (JObj members) =>
          (forall k, (forall v, ~ In (k, v) members) ->
                     PersistentDict_init file !! k = None)
          /\ (forall before k v after,
                 members = before ++ (k, v) :: after ->
                 (forall v', ~ In (k, v') after) ->
                 PersistentDict_init file !! k = Some v)
      | _ => PersistentDict_init file = ∅
      end
  end.
Proof.
  destruct file as [content|]; [|reflexivity].
  unfold PersistentDict_init.
  destruct (json_loads content) as [[| | | | |members]|]; try reflexivity.
  split.
  - intros k Habsent. rewrite dict_update_lookup, dict_get_absent by exact Habsent.
    apply pydict_lookup_empty.
  - intros before k v after -> Habsent.
    rewrite dict_update_lookup, dict_get_app. cbn [dict_get].
    rewrite dict_get_absent by exact Habsent.
    rewrite String.eqb_refl. reflexivity.
Qed.

(** X6. [del d[key]].  For a key of the table the entry is removed from
    the table, one write of the whole remaining table is started, [get] of
    the key then gives [None], and the other entries are as before.  When
    the write returns, the call ends normally and the file holds the
    remaining table; when it raises, the call ends with that exception,
    the entry is gone from the table all the same, and the file is what
    the failed write left.  For a key that is not in the table [KeyError]
    is raised, nothing is written, and neither the table nor the file
    changes. *)
Theorem delitem_then_get (key : string) (s : state) :
  let run := PersistentDict_delitem key s in
  let table := delete key (USER_TOKEN_MAP s) in
  match USER_TOKEN_MAP s !! key with
  | Some _ =>
      USER_TOKEN_MAP (state_of run) = table
      /\ events_of run = [WriteText (json_dumps table)]
      /\ result_of (PersistentDict_get key (state_of run)) = Ret JNull
      /\ (forall other, other <> key ->
            table !! other = USER_TOKEN_MAP s !! other)
      /\ match write_text (json_dumps table) (world s) with
         | Written _ =>
             result_of run = Ret tt /\ file_synced (state_of run)
         | WriteFailed e remains _ =>
             result_of run = Raise e /\ token_file (state_of run) = remains
         end
  | None => run = (Raise KeyError, s, [])
  end.
Proof.
  intros run table. subst run.
  unfold PersistentDict_delitem, bind, dict_delitem.
  destruct (USER_TOKEN_MAP s !! key) eqn:Hkey; [|reflexivity].
  unfold PersistentDict_save. cbn [USER_TOKEN_MAP token_file world].
  fold table.
  assert (Hgone : table !! key = None) by apply pydict_lookup_delete_eq.
  assert (Hrest : forall other, other <> key ->
                    table !! other = USER_TOKEN_MAP s !! other).
  { intros other Hne. apply pydict_lookup_delete_ne. congruence. }
  destruct (write_text (json_dumps table) (world s));
    cbn [result_of state_of events_of fst snd USER_TOKEN_MAP token_file
         PersistentDict_get app];
    rewrite Hgone; repeat split; try reflexivity; exact Hrest.
Qed.

Lemma str_of_int_inj (a b : Z) : str_of_int a = str_of_int b -> a = b.
Proof.
  unfold str_of_int. intros H.
  assert (Hok : forall z, Z.to_int z <> Decimal.Pos Decimal.Nil
                          /\ Z.to_int z <> Decimal.Neg Decimal.Nil).
  { intros [|p|p]; cbn; split; try discriminate;
      intros [= Hp]; revert Hp; apply DecimalPos.Unsigned.to_uint_nonnil. }
  apply DecimalZ.to_int_inj.
  assert (Hsome : Some (Z.to_int a) = Some (Z.to_int b)).
  { rewrite <- (NilZero.isi (Z.to_int a)) by apply Hok.
    rewrite <- (NilZero.isi (Z.to_int b)) by apply Hok.
    rewrite H. reflexivity. }
  injection Hsome as Hsome. exact Hsome.
Qed.

(** *** What the handlers do and never do *)

(** Closes the goals of [save_bookmark_effects] for a path without, and
    for a path with, the lookup of the details. *)
Ltac no_lookup :=
  repeat split; try reflexivity; cbn; try lia; try (intros ? []).
Ltac one_lookup H :=
  repeat split; try reflexivity; cbn; try lia; try exact H.

(** X9. [save_bookmark], whatever the backend answers: it leaves the token
    table and its file alone, starts no subprocess, posts the bookmark
    once and never again, looks up details at most once, and only after a
    202 that carries a non-empty [Bookmark-Id], which is the id it looks
    up.  It sends exactly one reply when it ends normally, and none when
    it ends with an exception. *)
Theorem save_bookmark_effects (update : Update) (url : string)
    (title : option string) (labels : list string) (token : json) (s : state) :
  let run := save_bookmark update url title labels token s in
  let evs := events_of run in
  let post_url := READECK_BASE_URL +:+ "/api/bookmarks" in
  tokens_unchanged s (state_of run)
  /\ List.filter is_write evs = []
  /\ List.filter is_subprocess evs = []
  /\ List.filter is_post evs
     = [RequestsPost post_url (bookmark_headers token)
          (bookmark_data url title labels)]
  /\ length (List.filter is_get evs) <= 1
  /\ match result_of run with
     | Ret _ => length (replies evs) = 1
     | Raise _ => replies evs = []
     end
  /\ (forall g, In g (List.filter is_get evs) ->
        exists r w bookmark_id,
          http_post post_url (bookmark_headers token)
                    (bookmark_data url title labels) (world s) = (Ret r, w)
          /\ status_code r = 202%Z
          /\ headers_get r "Bookmark-Id" = Some bookmark_id
          /\ is_empty bookmark_id = false
          /\ g = RequestsGet
                   (READECK_BASE_URL +:+ "/api/bookmarks/" +:+ bookmark_id)
                   (bookmark_headers token)).
Proof.
  intros run evs post_url. subst evs run post_url.
  unfold save_bookmark, bind, try_request, requests_post.
  destruct (http_post _ _ _ (world s)) as [[r|e] w] eqn:Hpost;
    [|destruct e; no_lookup].
  destruct (status_code r =? 202)%Z eqn:H202; [|no_lookup].
  destruct (headers_get r "Bookmark-Id") as [bookmark_id|] eqn:Hid;
    [|no_lookup].
  destruct (is_empty bookmark_id) eqn:Hne; cbn [negb]; [no_lookup|].
  unfold requests_get. cbn [world USER_TOKEN_MAP token_file].
  assert (Hget : forall g : event,
    RequestsGet (READECK_BASE_URL +:+ "/api/bookmarks/" +:+ bookmark_id)
      (bookmark_headers token) = g \/ False ->
    exists r' w' bookmark_id',
      (Ret r, w) = (Ret r', w')
      /\ status_code r' = 202%Z
      /\ headers_get r' "Bookmark-Id" = Some bookmark_id'
      /\ is_empty bookmark_id' = false
      /\ g = RequestsGet
               (READECK_BASE_URL +:+ "/api/bookmarks/" +:+ bookmark_id')
               (bookmark_headers token)).
  { intros g [<-|[]]. exists r, w, bookmark_id.
    repeat split; try assumption. apply Z.eqb_eq. assumption. }
  destruct (http_get _ _ w) as [[details|e] w'];
    [|destruct e; one_lookup Hget].
  destruct (status_code details =? 200)%Z; [|one_lookup Hget].
  unfold response_json.
  destruct (json_body details) as [info|]; [|one_lookup Hget].
  unfold json_get, ret, raise.
  destruct info as [| | | | |members]; try solve [one_lookup Hget].
  destruct (truthy (dict_get_or "href" _ members)); one_lookup Hget.
Qed.

Lemma tokens_unchanged_world (s : state) (w : World) :
  tokens_unchanged s {| USER_TOKEN_MAP := USER_TOKEN_MAP s;
                        token_file := token_file s; world := w |}.
Proof. split; reflexivity. Qed.

(** The paths of the token exchange: one request to [/api/auth]; then
    either nothing is stored and nothing written, or a token that Python
    takes for true is stored under the requester's id and one write of
    the table is started; the reply is the one of a successful
    registration when the write returns, and there is none when it
    raises. *)
Lemma fetch_token_paths (update : Update) (username password : string)
    (s : state) :
  let run := fetch_token update username password s in
  let evs := events_of run in
  let key := str_of_int (effective_user_id update) in
  List.filter is_subprocess evs = []
  /\ List.filter is_get evs = []
  /\ length (List.filter is_post evs) = 1
  /\ ((tokens_unchanged s (state_of run)
       /\ List.filter is_write evs = []
       /\ length (replies evs) <= 1
       /\ ~ In "Registration successful! Your token has been saved."
              (replies evs))
      \/ (exists token,
             truthy token = true
             /\ USER_TOKEN_MAP (state_of run)
                = <[key := token]> (USER_TOKEN_MAP s)
             /\ List.filter is_write evs
                = [WriteText (json_dumps (USER_TOKEN_MAP (state_of run)))]
             /\ match result_of run with
                | Ret _ =>
                    file_synced (state_of run)
                    /\ replies evs
                       = ["Registration successful! Your token has been saved."]
                | Raise _ => replies evs = []
                end)).
Proof.
  intros run evs key. subst evs run.
  unfold fetch_token, bind, requests_post.
  assert (Hquiet : forall (o : outcome unit) (w : World) (answers : list string),
    length answers <= 1 ->
    ~ In "Registration successful! Your token has been saved." answers ->
    forall evs,
    List.filter is_write evs = [] -> replies evs = answers ->
    (tokens_unchanged s
       (state_of (o, {| USER_TOKEN_MAP := USER_TOKEN_MAP s;
                        token_file := token_file s; world := w |}, evs))
     /\ List.filter is_write (events_of (o, {| USER_TOKEN_MAP := USER_TOKEN_MAP s;
                        token_file := token_file s; world := w |}, evs)) = []
     /\ length (replies (events_of (o, {| USER_TOKEN_MAP := USER_TOKEN_MAP s;
                        token_file := token_file s; world := w |}, evs))) <= 1
     /\ ~ In "Registration successful! Your token has been saved."
            (replies (events_of (o, {| USER_TOKEN_MAP := USER_TOKEN_MAP s;
                        token_file := token_file s; world := w |}, evs))))).
  { intros o w answers Hlen Hnot evs Hw Hr. cbn [events_of state_of fst snd].
    rewrite Hr. repeat split; assumption. }
  destruct (http_post _ _ _ (world s)) as [[r|e] w].
  2: { repeat split; try reflexivity. left.
       apply (Hquiet _ _ []);
         [cbn; lia | intros [] | reflexivity | reflexivity]. }
  destruct ((200 <=? status_code r)%Z && (status_code r <? 300)%Z).
  2: { repeat split; try reflexivity. left.
       apply (Hquiet _ _ ["Having troubles now... try later."]);
         [cbn; lia | intros [H|[]]; discriminate | reflexivity | reflexivity]. }
  unfold response_json.
  destruct (json_body r) as [data|].
  2: { repeat split; try reflexivity. left. apply (Hquiet _ _ []);
         [cbn; lia | intros [] | reflexivity | reflexivity]. }
  unfold ret, json_get.
  destruct data as [| | | | |members];
    try (repeat split; try reflexivity; left; apply (Hquiet _ _ []);
         [cbn; lia | intros [] | reflexivity | reflexivity]).
  unfold ret.
  destruct (truthy (dict_get_or "token" JNull members)) eqn:Htoken.
  - rewrite PersistentDict_setitem_run. cbn [USER_TOKEN_MAP token_file world].
    destruct (write_text _ w);
      (repeat split; try reflexivity; right;
       exists (dict_get_or "token" JNull members);
       repeat split; (assumption || reflexivity)).
  - repeat split; try reflexivity. left.
    apply (Hquiet _ _ ["Registration succeeded but failed to retrieve token."]);
      [cbn; lia | intros [H|[]]; discriminate | reflexivity | reflexivity].
Qed.

(** The token table after [register_and_fetch_token]: untouched, with
    nothing written; or with one new token, and one write of the whole
    table, after which the handler ends normally when the write returned
    and has sent no reply when it raised. *)
Lemma register_table (update : Update) (username password : string)
    (s : state) :
  let run := register_and_fetch_token update username password s in
  (tokens_unchanged s (state_of run)
   /\ List.filter is_write (events_of run) = [])
  \/ (exists token,
         USER_TOKEN_MAP (state_of run)
         = <[str_of_int (effective_user_id update) := token]> (USER_TOKEN_MAP s)
         /\ List.filter is_write (events_of run)
            = [WriteText (json_dumps (USER_TOKEN_MAP (state_of run)))]
         /\ match result_of run with
            | Ret _ => file_synced (state_of run)
            | Raise _ => replies (events_of run) = []
            end).
Proof.
  intros run. subst run.
  assert (Hexchange : forall w,
    let exchange :=
      fetch_token update username password
        {| USER_TOKEN_MAP := USER_TOKEN_MAP s;
           token_file := token_file s; world := w |} in
    (tokens_unchanged s (state_of exchange)
     /\ List.filter is_write (events_of exchange) = [])
    \/ (exists token,
           USER_TOKEN_MAP (state_of exchange)
           = <[str_of_int (effective_user_id update) := token]>
               (USER_TOKEN_MAP s)
           /\ List.filter is_write (events_of exchange)
              = [WriteText (json_dumps (USER_TOKEN_MAP (state_of exchange)))]
           /\ match result_of exchange with
              | Ret _ => file_synced (state_of exchange)
              | Raise _ => replies (events_of exchange) = []
              end)).
  { intros w exchange.
    destruct (fetch_token_paths update username password
                {| USER_TOKEN_MAP := USER_TOKEN_MAP s;
                   token_file := token_file s; world := w |})
      as (_ & _ & _ & [(Hsame & Hw & _) | (token & _ & Htable & Hw & Hend)]).
    - left. split; assumption.
    - right. exists token. split; [exact Htable | split; [exact Hw|]].
      fold exchange in Hend.
      destruct (result_of exchange); [apply Hend | exact Hend]. }
  destruct (run_process (command username password) (world s))
    as [[p1|e1] w1] eqn:H1.
  2: { rewrite (register_local_exception update username password s e1 w1 H1).
       left. split; [apply tokens_unchanged_world | reflexivity]. }
  destruct (Z.eq_dec (returncode p1) 0%Z) as [Hrc1|Hrc1].
  - rewrite (register_after_local_success update username password s p1 w1
               H1 Hrc1).
    apply (Hexchange w1).
  - destruct (run_process (docker_command username password) w1)
      as [o2 w2] eqn:H2.
    rewrite (register_after_local_failure update username password s
               p1 w1 w2 o2 H1 Hrc1 H2).
    cbn zeta. destruct o2 as [p2|e2];
      [|left; split; [apply tokens_unchanged_world | reflexivity]].
    destruct (returncode p2 =? 0)%Z;
      [|left; split; [apply tokens_unchanged_world | reflexivity]].
    apply (Hexchange w2).
Qed.

(** X8. [register_and_fetch_token], whatever the tools, the backend and
    the file system answer: it starts at most two subprocesses, sends at
    most one reply, makes no GET request, and posts to [/api/auth] at most
    once and only after a provisioning that succeeded.  The token table
    changes on one path only: a token that Python takes for true is stored
    under the requester's id and one write of the whole table is started.
    When the handler then ends normally, the file holds that table and
    the only reply is that of a successful registration; when it ends with
    an exception, as it does when the write raises, the table has the
    token and no reply has been sent.  On every other path table and file
    stay as they are, nothing is written, and that reply is not sent. *)
Theorem register_effects (update : Update) (username password : string)
    (s : state) :
  let run := register_and_fetch_token update username password s in
  let evs := events_of run in
  let key := str_of_int (effective_user_id update) in
  length (List.filter is_subprocess evs) <= 2
  /\ List.filter is_get evs = []
  /\ length (List.filter is_post evs) <= 1
  /\ (List.filter is_post evs <> [] ->
      exists w, provisioned username password (world s) w)
  /\ ((tokens_unchanged s (state_of run)
       /\ List.filter is_write evs = []
       /\ length (replies evs) <= 1
       /\ ~ In "Registration successful! Your token has been saved."
              (replies evs))
      \/ (exists token,
             truthy token = true
             /\ USER_TOKEN_MAP (state_of run)
                = <[key := token]> (USER_TOKEN_MAP s)
             /\ List.filter is_write evs
                = [WriteText (json_dumps (USER_TOKEN_MAP (state_of run)))]
             /\ match result_of run with
                | Ret _ =>
                    file_synced (state_of run)
                    /\ replies evs
                       = ["Registration successful! Your token has been saved."]
                | Raise _ => replies evs = []
                end)).
Proof.
  intros run evs key. subst evs run.
  destruct (run_process (command username password) (world s))
    as [[p1|e1] w1] eqn:H1.
  2: { rewrite (register_local_exception update username password s e1 w1 H1).
       cbn. repeat split; try lia; [intros []; reflexivity|].
       left. repeat split; try reflexivity; [lia | intros []]. }
  destruct (Z.eq_dec (returncode p1) 0%Z) as [Hrc1|Hrc1].
  - rewrite (register_after_local_success update username password s p1 w1
               H1 Hrc1).
    cbn zeta.
    pose proof (fetch_token_paths update username password
                  {| USER_TOKEN_MAP := USER_TOKEN_MAP s;
                     token_file := token_file s; world := w1 |})
      as (Hsub & Hget & Hpost & Hpaths).
    cbn zeta in Hsub, Hget, Hpost, Hpaths.
    cbn [events_of state_of result_of fst snd List.filter is_subprocess
         is_get is_post is_write replies flat_map app length].
    rewrite Hsub, Hget, Hpost. repeat split; try (cbn; lia).
    + intros _. exists w1. left. exists p1. split; assumption.
    + exact Hpaths.
  - destruct (run_process (docker_command username password) w1)
      as [o2 w2] eqn:H2.
    rewrite (register_after_local_failure update username password s
               p1 w1 w2 o2 H1 Hrc1 H2).
    cbn zeta. destruct o2 as [p2|e2].
    2: { cbn. repeat split; try lia; [intros []; reflexivity|].
         left. repeat split; try reflexivity; [lia | intros []]. }
    destruct (returncode p2 =? 0)%Z eqn:Hrc2.
    2: { cbn. repeat split; try lia; [intros []; reflexivity|].
         left. repeat split; try reflexivity.
         intros [H|[]]. repeat rewrite append_String in H. discriminate. }
    pose proof (fetch_token_paths update username password
                  {| USER_TOKEN_MAP := USER_TOKEN_MAP s;
                     token_file := token_file s; world := w2 |})
      as (Hsub & Hget & Hpost & Hpaths).
    cbn zeta in Hsub, Hget, Hpost, Hpaths.
    cbn [events_of state_of result_of fst snd List.filter is_subprocess
         is_get is_post is_write replies flat_map app length].
    rewrite Hsub, Hget, Hpost. repeat split; try (cbn; lia).
    + intros _. exists w2. right. exists p1, w1, p2.
      repeat split; try assumption. apply Z.eqb_eq. exact Hrc2.
    + exact Hpaths.
Qed.

Lemma save_bookmark_quiet (update : Update) (url : string)
    (title : option string) (labels : list string) (token : json) (s : state) :
  let run := save_bookmark update url title labels token s in
  tokens_unchanged s (state_of run)
  /\ List.filter is_write (events_of run) = [].
Proof.
  intros run. subst run.
  unfold save_bookmark, bind, try_request, requests_post.
  destruct (http_post _ _ _ (world s)) as [[r|e] w];
    [|destruct e; split; split; reflexivity].
  destruct (status_code r =? 202)%Z; [|split; split; reflexivity].
  destruct (headers_get r "Bookmark-Id") as [bookmark_id|];
    [|split; split; reflexivity].
  destruct (is_empty bookmark_id); cbn [negb]; [split; split; reflexivity|].
  unfold requests_get. cbn [world USER_TOKEN_MAP token_file].
  destruct (http_get _ _ w) as [[details|e] w'];
    [|destruct e; split; split; reflexivity].
  destruct (status_code details =? 200)%Z; [|split; split; reflexivity].
  unfold response_json.
  destruct (json_body details) as [info|]; [|split; split; reflexivity].
  unfold json_get, ret, raise.
  destruct info as [| | | | |members]; try (split; split; reflexivity).
  destruct (truthy (dict_get_or "href" _ members)); split; split; reflexivity.
Qed.

Lemma filter_reply_texts (f : event -> bool) (l : list string) :
  (forall body, f (ReplyText body None) = false) ->
  List.filter f (map (fun chunk => ReplyText chunk None) l) = [].
Proof.
  intros Hf. induction l as [|chunk l IH]; [reflexivity|].
  cbn [map List.filter]. rewrite Hf. exact IH.
Qed.

(** The paths of [fetch_article_markdown]: one GET request, then the
    chunks of the article, one reply saying that it failed, or an
    exception and no reply. *)
Lemma fetch_article_markdown_paths (update : Update) (bookmark_id : string)
    (token : json) (s : state) :
  let run := fetch_article_markdown update bookmark_id token s in
  let request :=
    RequestsGet (READECK_BASE_URL +:+ "/api/bookmarks/" +:+ bookmark_id
                 +:+ "/article.md")
                (bearer_headers token "application/epub+zip") in
  tokens_unchanged s (state_of run)
  /\ exists answers,
       events_of run = request :: map (fun body => ReplyText body None) answers
       /\ match result_of run with
          | Ret _ => True
          | Raise _ => answers = []
          end.
Proof.
  intros run request. subst run request.
  unfold fetch_article_markdown, bind, try_request, requests_get.
  destruct (http_get _ _ (world s)) as [[r|e] w].
  - destruct (status_code r =? 200)%Z.
    + rewrite send_long_message_chunks. split; [split; reflexivity|].
      exists (chunks_with limit (text r)). split; [reflexivity | exact I].
    + split; [split; reflexivity|].
      exists ["Failed to retrieve the article markdown."].
      split; [reflexivity | exact I].
  - destruct e; (split; [split; reflexivity|]);
      try (exists []; split; reflexivity).
    exists ["Having troubles now... try later."]. split; [reflexivity | exact I].
Qed.

Lemma bind_ret_same {A B} (x : A) (k : A -> M B) (s : state) :
  bind (ret x) k s = k x s.
Proof.
  unfold bind, ret. destruct (k x s) as [[o s'] evs]. reflexivity.
Qed.

(** What a handler does to the token table: nothing, and then it writes
    nothing; or it sets the token of the user who sent the request and
    starts one write of the whole table.  When the handler then ends
    normally the file holds that table; when it ends with an exception,
    which is the one of the write, it has sent no reply. *)
Lemma handle_table (q : request) (update : Update) (s : state) :
  let run := handle q update s in
  (tokens_unchanged s (state_of run)
   /\ List.filter is_write (events_of run) = [])
  \/ (exists token,
         USER_TOKEN_MAP (state_of run)
         = <[str_of_int (effective_user_id update) := token]> (USER_TOKEN_MAP s)
         /\ List.filter is_write (events_of run)
            = [WriteText (json_dumps (USER_TOKEN_MAP (state_of run)))]
         /\ match result_of run with
            | Ret _ => file_synced (state_of run)
            | Raise _ => replies (events_of run) = []
            end).
Proof.
  intros run. subst run.
  destruct q as [args|args| |]; cbn [handle].
  - unfold register_command.
    destruct args as [|a [|b [|c rest]]]; cbn [list_is_empty length Nat.eqb].
    + apply register_table.
    + unfold list_index. cbn [lookup list_lookup]. rewrite bind_ret_same.
      apply register_table.
    + unfold list_index. cbn [lookup list_lookup]. rewrite !bind_ret_same.
      apply register_table.
    + left. split; [split; reflexivity | reflexivity].
  - unfold token_command.
    destruct args as [|t [|b rest]];
      cbn [list_is_empty length Nat.eqb negb orb];
      try (left; split; [split; reflexivity | reflexivity]).
    right. exists (JStr t).
    unfold bind, list_index, ret. cbn [lookup list_lookup].
    rewrite PersistentDict_setitem_run. cbn [USER_TOKEN_MAP token_file world].
    destruct (write_text _ (world s)); repeat split; reflexivity.
  - unfold dynamic_md_handler.
    destruct (String.prefix "/md_" (strip (message_text update)));
      [|left; split; [split; reflexivity | reflexivity]].
    unfold bind, PersistentDict_get.
    destruct (truthy _); cbn [negb];
      [|left; split; [split; reflexivity | reflexivity]].
    match goal with |- context [fetch_article_markdown ?u ?b ?t s] =>
      destruct (fetch_article_markdown_paths u b t s)
        as (Hsame & answers & Hevs & _);
      destruct (fetch_article_markdown u b t s) as [[o s'] evs] end.
    cbn [events_of state_of fst snd app] in *. left. split; [exact Hsame|].
    rewrite Hevs. cbn [List.filter is_write].
    apply filter_reply_texts. reflexivity.
  - unfold handle_message, bind, PersistentDict_get.
    destruct (truthy _); cbn [negb];
      [|left; split; [split; reflexivity | reflexivity]].
    destruct (has_scheme _);
      [|left; split; [split; reflexivity | reflexivity]].
    destruct (extract_url_title_labels _) as [[url title] labels].
    destruct (truthy_str url); cbn [negb];
      [|left; split; [split; reflexivity | reflexivity]].
    match goal with |- context [save_bookmark ?u ?a ?b ?c ?t s] =>
      pose proof (save_bookmark_quiet u a b c t s) as H;
      destruct (save_bookmark u a b c t s) as [[o s'] evs] end.
    left. exact H.
Qed.

(** X7. Each of the handlers for [/register], [/token], [/md_...] and
    text messages either leaves the token table and its file as they are
    and writes nothing, or starts exactly one write, of the whole table as
    it is after the handler.  In the second case a handler that ends
    normally leaves the file holding that table; a handler that ends with
    an exception, as it does when the write raises, has sent no reply,
    and then the table has the change while the file need not. *)
Theorem table_written_when_changed (q : request) (update : Update)
    (s : state) :
  let run := handle q update s in
  (tokens_unchanged s (state_of run)
   /\ List.filter is_write (events_of run) = [])
  \/ (List.filter is_write (events_of run)
      = [WriteText (json_dumps (USER_TOKEN_MAP (state_of run)))]
      /\ match result_of run with
         | Ret _ => file_synced (state_of run)
         | Raise _ => replies (events_of run) = []
         end).
Proof.
  intros run.
  destruct (handle_table q update s) as [Hsame | (token & _ & Hw & Hend)].
  - left. exact Hsame.
  - right. split; assumption.
Qed.

(** X13. No handler touches the token of another user: what the table
    holds for a user id other than the one of the update is after the
    handler what it was before. *)
Theorem other_users_untouched (q : request) (update : Update) (s : state)
    (other : Z) :
  other <> effective_user_id update ->
  USER_TOKEN_MAP (state_of (handle q update s)) !! str_of_int other
  = USER_TOKEN_MAP s !! str_of_int other.
Proof.
  intros Hother.
  destruct (handle_table q update s) as [[[Hsame _] _] | (token & Htable & _)].
  - rewrite Hsame. reflexivity.
  - rewrite Htable. apply pydict_lookup_insert_ne.
    intros Heq. apply str_of_int_inj in Heq. congruence.
Qed.

(** *** Bookmarks and their follow-up command *)

Lemma str_contains_app (needle before rest : string) :
  str_contains needle (before +:+ needle +:+ rest) = true.
Proof.
  induction before as [|c before IH].
  - change (EmptyString +:+ needle +:+ rest) with (needle +:+ rest).
    destruct (needle +:+ rest) eqn:E; cbn [str_contains];
      rewrite <- E, prefix_app; reflexivity.
  - rewrite append_String. cbn [str_contains]. rewrite IH.
    destruct (String.prefix needle _); reflexivity.
Qed.

(** Proves that a text has [needle] in it, from the texts [before] and
    [rest] around it. *)
Ltac contains_part needle before rest :=
  match goal with
  | |- str_contains _ ?body = true =>
      replace body with (before +:+ needle +:+ rest);
      [ apply str_contains_app
      | repeat rewrite append_assoc; reflexivity ]
  end.

(** X10. The confirmation of a saved bookmark.  After a 202 with a
    non-empty [Bookmark-Id] and details that come with status 200 and a
    JSON object, the handler ends normally with one reply, in which the
    command [/md_] followed by the id of the header stands as it came, and
    the title of the details ([No Title] without one).  The reply is sent
    as Markdown exactly when the details have an [href] that Python takes
    for true, and then holds that too. *)
Theorem save_bookmark_confirms_command (update : Update) (url : string)
    (title : option string) (labels : list string) (token : json)
    (s : state) (r details : Response) (w1 w2 : World)
    (bookmark_id : string) (info : list (string * json)) :
  http_post (READECK_BASE_URL +:+ "/api/bookmarks") (bookmark_headers token)
            (bookmark_data url title labels) (world s) = (Ret r, w1) ->
  status_code r = 202%Z ->
  headers_get r "Bookmark-Id" = Some bookmark_id ->
  is_empty bookmark_id = false ->
  http_get (READECK_BASE_URL +:+ "/api/bookmarks/" +:+ bookmark_id)
           (bookmark_headers token) w1 = (Ret details, w2) ->
  status_code details = 200%Z ->
  json_body details = Some (JObj info) ->
  let run := save_bookmark update url title labels token s in
  let real_title := dict_get_or "title" (JStr "No Title") info in
  let href := dict_get_or "href" (JStr EmptyString) info in
  exists body,
    events_of run
    = [RequestsPost (READECK_BASE_URL +:+ "/api/bookmarks")
         (bookmark_headers token) (bookmark_data url title labels);
       RequestsGet (READECK_BASE_URL +:+ "/api/bookmarks/" +:+ bookmark_id)
         (bookmark_headers token);
       ReplyText body (if truthy href then Some MARKDOWN else None)]
    /\ result_of run = Ret tt
    /\ str_contains ("/md_" +:+ bookmark_id) body = true
    /\ str_contains (py_str real_title) body = true
    /\ (if truthy href then str_contains (py_str href) body = true else True).
Proof.
  intros Hpost H202 Hid Hne Hget H200 Hbody run real_title href. subst run.
  set (command_line :=
         "Use `/md_" +:+ bookmark_id +:+ "` to view the article's markdown.").
  assert (Hrun :
    save_bookmark update url title labels token s
    = (Ret tt,
       {| USER_TOKEN_MAP := USER_TOKEN_MAP s;
          token_file := token_file s; world := w2 |},
       [RequestsPost (READECK_BASE_URL +:+ "/api/bookmarks")
          (bookmark_headers token) (bookmark_data url title labels);
        RequestsGet (READECK_BASE_URL +:+ "/api/bookmarks/" +:+ bookmark_id)
          (bookmark_headers token);
        if truthy href
        then ReplyText ("Saved: [" +:+ py_str real_title +:+ "]("
                        +:+ py_str href +:+ ")" +:+ nl +:+ nl +:+ command_line)
                       (Some MARKDOWN)
        else ReplyText ("Saved: " +:+ py_str real_title +:+ nl +:+ nl
                        +:+ command_line)
                       None])).
  { unfold save_bookmark. first_call Hpost.
    rewrite H202. cbn [Z.eqb Pos.eqb]. rewrite Hid, Hne. cbn [negb].
    first_call Hget. rewrite H200. cbn [Z.eqb Pos.eqb].
    unfold response_json. rewrite Hbody.
    cbv [bind ret json_get reply_text]. fold real_title. fold href.
    destruct (truthy href); reflexivity. }
  rewrite Hrun. cbn [events_of result_of fst snd]. subst command_line.
  destruct (truthy href).
  - eexists. split; [reflexivity|]. split; [reflexivity|].
    split; [|split].
    + contains_part ("/md_" +:+ bookmark_id)
        ("Saved: [" +:+ py_str real_title +:+ "](" +:+ py_str href
         +:+ ")" +:+ nl +:+ nl +:+ "Use `")
        "` to view the article's markdown.".
    + contains_part (py_str real_title) "Saved: ["
        ("](" +:+ py_str href +:+ ")" +:+ nl +:+ nl +:+ "Use `/md_"
         +:+ bookmark_id +:+ "` to view the article's markdown.").
    + contains_part (py_str href)
        ("Saved: [" +:+ py_str real_title +:+ "](")
        (")" +:+ nl +:+ nl +:+ "Use `/md_"
         +:+ bookmark_id +:+ "` to view the article's markdown.").
  - eexists. split; [reflexivity|]. split; [reflexivity|].
    split; [|split; [|exact I]].
    + contains_part ("/md_" +:+ bookmark_id)
        ("Saved: " +:+ py_str real_title +:+ nl +:+ nl +:+ "Use `")
        "` to view the article's markdown.".
    + contains_part (py_str real_title) "Saved: "
        (nl +:+ nl +:+ "Use `/md_"
         +:+ bookmark_id +:+ "` to view the article's markdown.").
Qed.

Lemma rstrip_fixed_tail (a : string) :
  rstrip a = a ->
  match a with
  | EmptyString => True
  | String c a' => rstrip a' = a' /\ (a' = EmptyString -> is_space c = false)
  end.
Proof.
  destruct a as [|c a']; [exact (fun _ => I)|].
  cbn [rstrip]. destruct (rstrip a') as [|d r] eqn:Hr.
  - destruct (is_space c); [discriminate|].
    intros [= <-]. split; [reflexivity | reflexivity].
  - intros [= <-]. split; [reflexivity | discriminate].
Qed.

Lemma rstrip_app_fixed (a b : string) :
  rstrip a = a -> rstrip b = b -> rstrip (a +:+ b) = a +:+ b.
Proof.
  intros Ha Hb. induction a as [|c a IH]; [exact Hb|].
  apply rstrip_fixed_tail in Ha as [Ha Hc].
  rewrite append_String. cbn [rstrip]. rewrite (IH Ha).
  destruct (a +:+ b) eqn:E; [|reflexivity].
  destruct a; [|rewrite append_String in E; discriminate].
  rewrite (Hc eq_refl). reflexivity.
Qed.

(** X11. The follow-up command comes back to the bookmark.  When a user
    with a stored token sends [/md_] followed by an id that does not end
    in white space, the first thing the handler does is a GET request for
    [/api/bookmarks/<id>/article.md] with exactly that id and the token
    as bearer; after it come only replies. *)
Theorem follow_up_command_fetches_bookmark (update : Update) (s : state)
    (bookmark_id : string) (token : json) :
  message_text update = "/md_" +:+ bookmark_id ->
  rstrip bookmark_id = bookmark_id ->
  USER_TOKEN_MAP s !! str_of_int (effective_user_id update) = Some token ->
  truthy token = true ->
  exists answers,
    events_of (dynamic_md_handler update s)
    = RequestsGet (READECK_BASE_URL +:+ "/api/bookmarks/" +:+ bookmark_id
                   +:+ "/article.md")
                  (bearer_headers token "application/epub+zip")
      :: map (fun body => ReplyText body None) answers.
Proof.
  intros Htext Hid Htoken Htruthy.
  assert (Hstrip : strip (message_text update) = "/md_" +:+ bookmark_id).
  { rewrite Htext. unfold strip.
    change (lstrip ("/md_" +:+ bookmark_id)) with ("/md_" +:+ bookmark_id).
    apply (rstrip_app_fixed "/md_" bookmark_id); [reflexivity | exact Hid]. }
  unfold dynamic_md_handler. rewrite Hstrip, prefix_app.
  rewrite (str_drop_app "/md_" bookmark_id).
  unfold bind, PersistentDict_get. rewrite Htoken.
  change (default JNull (Some token)) with token.
  rewrite Htruthy. cbn [negb].
  destruct (fetch_article_markdown_paths update bookmark_id token s)
    as (_ & answers & Hevs & _).
  destruct (fetch_article_markdown update bookmark_id token s) as [[o s'] evs].
  exists answers. exact Hevs.
Qed.

(** *** Long messages *)

Lemma length_str_drop (n : nat) (s : string) :
  String.length (str_drop n s) = String.length s - n.
Proof.
  revert s. induction n as [|n IH]; intros [|c s]; cbn; try reflexivity.
  apply IH.
Qed.

Lemma ceil_div_bound (n d k : nat) :
  0 < d -> k < ceil_div n d -> k * d < n.
Proof.
  intros Hd Hk. unfold ceil_div in Hk.
  pose proof (Nat.Div0.mul_div_le (n + d - 1) d) as Hq.
  nia.
Qed.

(** X12. The messages of [send_long_message].  The message number [k],
    counted from 0, has [min(4000, len(text) - 4000 k)] characters, and
    at least one: no message is empty, and every message but the last has
    exactly 4000 characters.  For the empty text there is no message at
    all. *)
Theorem send_long_message_sizes (update : Update) (body : string)
    (s : state) :
  let sent := replies (events_of (send_long_message update body s)) in
  (forall k chunk,
      sent !! k = Some chunk ->
      String.length chunk = Nat.min limit (String.length body - k * limit)
      /\ 0 < String.length chunk)
  /\ (sent = [] <-> body = EmptyString).
Proof.
  intros sent.
  assert (Hsent : sent
    = map (fun k => str_slice body (k * limit) (k * limit + limit))
          (seq 0 (ceil_div (String.length body) limit))).
  { subst sent. rewrite send_long_message_chunks. cbn [events_of snd].
    rewrite <- (chunks_with_spec limit body limit_positive).
    unfold replies. induction (chunks_with limit body) as [|c l IH];
      [reflexivity|]. cbn [map flat_map app]. rewrite IH. reflexivity. }
  rewrite Hsent. pose proof limit_positive as Hlimit.
  generalize dependent limit. intros lim _ Hlim. split.
  - intros k chunk Hk.
    apply list_lookup_fmap_Some in Hk as (k' & -> & Hk').
    apply lookup_seq in Hk' as [-> Hk'].
    cbn [Nat.add]. apply (ceil_div_bound _ _ _ Hlim) in Hk'.
    unfold str_slice. rewrite length_str_take, length_str_drop. lia.
  - split.
    + intros Hnil. destruct body as [|c body]; [reflexivity|exfalso].
      rewrite (ceil_div_step (String.length (String c body)) lim) in Hnil
        by (cbn; lia).
      discriminate.
    + intros ->. cbn [String.length]. rewrite ceil_div_zero. reflexivity.
Qed.

(** *** Tokens in use, and failures on the way *)

Lemma bind_events {A B} (m : M A) (k : A -> M B) (s : state) :
  exists rest, events_of (bind m k s) = events_of (m s) ++ rest.
Proof.
  unfold bind. destruct (m s) as [[[a|e] s1] evs1].
  - destruct (k a s1) as [[o s2] evs2]. exists evs2. reflexivity.
  - exists []. cbn [events_of snd]. rewrite app_nil_r. reflexivity.
Qed.

Lemma save_bookmark_first_event (update : Update) (url : string)
    (title : option string) (labels : list string) (token : json) (s : state) :
  exists rest,
    events_of (save_bookmark update url title labels token s)
    = RequestsPost (READECK_BASE_URL +:+ "/api/bookmarks")
        (bookmark_headers token) (bookmark_data url title labels) :: rest.
Proof.
  unfold save_bookmark.
  match goal with |- context [bind ?m ?k s] =>
    destruct (bind_events m k s) as (rest & ->) end.
  exists rest. unfold try_request, requests_post.
  destruct (http_post _ _ _ (world s)) as [[r|[]] w]; reflexivity.
Qed.

(** X14. A token set with [/token] is the one used afterwards.  When a
    user sets a non-empty token and then sends a text in which the parser
    finds a URL, the first thing the handler does is the POST to
    [/api/bookmarks] with the header [Authorization: Bearer <token>] and
    the parsed URL, title and labels as data. *)
Theorem token_then_bookmark (update message : Update) (tok : string)
    (s : state) (url : string) :
  effective_user_id message = effective_user_id update ->
  is_empty tok = false ->
  let parsed := extract_url_title_labels (strip (message_text message)) in
  fst (fst parsed) = Some url ->
  exists rest,
    events_of
      (handle_message message (state_of (token_command update [tok] s)))
    = RequestsPost (READECK_BASE_URL +:+ "/api/bookmarks")
        [("Authorization", "Bearer " +:+ tok);
         ("accept", "application/json");
         ("content-type", "application/json")]
        (bookmark_data url (snd (fst parsed)) (snd parsed))
      :: rest.
Proof.
  intros Huser Htok parsed Hurl.
  assert (Hsearch : search_url (strip (message_text message)) = Some url).
  { subst parsed. unfold extract_url_title_labels in Hurl.
    destruct (search_url _); [exact Hurl | discriminate]. }
  destruct (search_url_scheme _ _ Hsearch) as [Hscheme Hne].
  assert (Htable :
    USER_TOKEN_MAP (state_of (token_command update [tok] s))
    = <[str_of_int (effective_user_id update) := JStr tok]> (USER_TOKEN_MAP s)).
  { unfold token_command. cbn [list_is_empty length Nat.eqb negb orb].
    unfold bind, list_index, ret. cbn [lookup list_lookup].
    rewrite PersistentDict_setitem_run.
    destruct (write_text _ (world s)); reflexivity. }
  remember (state_of (token_command update [tok] s)) as st eqn:Hst.
  unfold handle_message, bind at 1, PersistentDict_get.
  rewrite Htable, Huser, pydict_lookup_insert_eq.
  change (default JNull (Some (JStr tok))) with (JStr tok).
  cbn [truthy]. rewrite Htok. cbn [negb]. rewrite Hscheme.
  fold parsed. destruct parsed as [[found title] labels] eqn:Hparsed.
  cbn [fst snd] in *. subst found. cbn [truthy_str]. rewrite Hne.
  cbn [negb default].
  match goal with |- context [save_bookmark ?u ?a ?b ?c ?t ?st] =>
    destruct (save_bookmark_first_event u a b c t st) as (rest & Hrest);
    destruct (save_bookmark u a b c t st) as [[o s'] evs] end.
  exists rest. exact Hrest.
Qed.

(** X15. Details that cannot be read.  When the bookmark was accepted with
    a 202 and a non-empty [Bookmark-Id], and the details come with status
    200 but a body that is not JSON, or JSON that is not an object, the
    handler ends with an exception after the two requests: the user gets
    no reply at all. *)
Theorem save_bookmark_unreadable_details (update : Update) (url : string)
    (title : option string) (labels : list string) (token : json)
    (s : state) (r details : Response) (w1 w2 : World) (bookmark_id : string) :
  http_post (READECK_BASE_URL +:+ "/api/bookmarks") (bookmark_headers token)
            (bookmark_data url title labels) (world s) = (Ret r, w1) ->
  status_code r = 202%Z ->
  headers_get r "Bookmark-Id" = Some bookmark_id ->
  is_empty bookmark_id = false ->
  http_get (READECK_BASE_URL +:+ "/api/bookmarks/" +:+ bookmark_id)
           (bookmark_headers token) w1 = (Ret details, w2) ->
  status_code details = 200%Z ->
  match json_body details with
  | Some (JObj _) => False
  | _ => True
  end ->
  let run := save_bookmark update url title labels token s in
  result_of run
  = Raise (match json_body details with
           | None => JSONDecodeError
           | Some _ => AttributeError
           end)
  /\ replies (events_of run) = []
  /\ length (events_of run) = 2.
Proof.
  intros Hpost H202 Hid Hne Hget H200 Hbody run.
  assert (Hrun :
    run = (Raise (match json_body details with
                  | None => JSONDecodeError
                  | Some _ => AttributeError
                  end),
           {| USER_TOKEN_MAP := USER_TOKEN_MAP s;
              token_file := token_file s; world := w2 |},
           [RequestsPost (READECK_BASE_URL +:+ "/api/bookmarks")
              (bookmark_headers token) (bookmark_data url title labels);
            RequestsGet (READECK_BASE_URL +:+ "/api/bookmarks/" +:+ bookmark_id)
              (bookmark_headers token)])).
  { subst run. unfold save_bookmark. first_call Hpost.
    rewrite H202. cbn [Z.eqb Pos.eqb]. rewrite Hid, Hne. cbn [negb].
    first_call Hget. rewrite H200. cbn [Z.eqb Pos.eqb].
    unfold response_json.
    destruct (json_body details) as [[| | | | |info]|];
      try reflexivity. contradiction. }
  rewrite Hrun. repeat split.
Qed.

(** X16. A failure of the request to [/api/auth] is not handled.  When
    provisioning succeeded and the request raises an exception, also a
    [RequestException], the handler ends with that exception: it sends
    no reply, and the token table and its file stay as they are. *)
Theorem register_request_not_caught (update : Update)
    (username password : string) (s : state) (w w' : World) (e : exn) :
  provisioned username password (world s) w ->
  http_post (READECK_BASE_URL +:+ "/api/auth")
            [("accept", "application/json"); ("content-type", "application/json")]
            (JObj [("application", JStr "telegram bot");
                   ("username", JStr username);
                   ("password", JStr password)])
            w = (Raise e, w') ->
  let run := register_and_fetch_token update username password s in
  result_of run = Raise e
  /\ replies (events_of run) = []
  /\ tokens_unchanged s (state_of run).
Proof.
  intros Hprov Hpost run.
  destruct (register_reaches_fetch_token update username password s w Hprov)
    as (calls & Hrun & Hquiet & _).
  subst run. rewrite Hrun.
  assert (Hexchange :
    fetch_token update username password
      {| USER_TOKEN_MAP := USER_TOKEN_MAP s;
         token_file := token_file s; world := w |}
    = (Raise e,
       {| USER_TOKEN_MAP := USER_TOKEN_MAP s;
          token_file := token_file s; world := w' |},
       [RequestsPost (READECK_BASE_URL +:+ "/api/auth")
          [("accept", "application/json"); ("content-type", "application/json")]
          (JObj [("application", JStr "telegram bot");
                 ("username", JStr username);
                 ("password", JStr password)])])).
  { unfold fetch_token. first_call Hpost. reflexivity. }
  rewrite Hexchange. cbn [result_of state_of events_of fst snd].
  split; [reflexivity|]. split; [|split; reflexivity].
  unfold replies in *. rewrite flat_map_app, Hquiet. reflexivity.
Qed.

(** X17. A failure of the network while a bookmark is saved is told to
    the user once and not tried again.  When the POST raises a
    [RequestException], the handler ends normally with the one reply
    [Having troubles now... try later.] and looks nothing up; when the
    POST is answered with 202 and a non-empty [Bookmark-Id] and the lookup
    raises it, the handler ends normally with the same reply after the
    two requests. *)
Theorem save_bookmark_network_failure (update : Update) (url : string)
    (title : option string) (labels : list string) (token : json) (s : state) :
  let run := save_bookmark update url title labels token s in
  let post :=
    RequestsPost (READECK_BASE_URL +:+ "/api/bookmarks")
      (bookmark_headers token) (bookmark_data url title labels) in
  (forall w,
      http_post (READECK_BASE_URL +:+ "/api/bookmarks") (bookmark_headers token)
                (bookmark_data url title labels) (world s)
      = (Raise RequestException, w) ->
      result_of run = Ret tt
      /\ events_of run
         = [post; ReplyText "Having troubles now... try later." None])
  /\ (forall r w1 w2 bookmark_id,
         http_post (READECK_BASE_URL +:+ "/api/bookmarks")
                   (bookmark_headers token)
                   (bookmark_data url title labels) (world s) = (Ret r, w1) ->
         status_code r = 202%Z ->
         headers_get r "Bookmark-Id" = Some bookmark_id ->
         is_empty bookmark_id = false ->
         http_get (READECK_BASE_URL +:+ "/api/bookmarks/" +:+ bookmark_id)
                  (bookmark_headers token) w1 = (Raise RequestException, w2) ->
         result_of run = Ret tt
         /\ events_of run
            = [post;
               RequestsGet
                 (READECK_BASE_URL +:+ "/api/bookmarks/" +:+ bookmark_id)
                 (bookmark_headers token);
               ReplyText "Having troubles now... try later." None]).
Proof.
  intros run post. subst run post. split.
  - intros w Hpost.
    assert (Hrun : save_bookmark update url title labels token s
      = (Ret tt,
         {| USER_TOKEN_MAP := USER_TOKEN_MAP s;
            token_file := token_file s; world := w |},
         [RequestsPost (READECK_BASE_URL +:+ "/api/bookmarks")
            (bookmark_headers token) (bookmark_data url title labels);
          ReplyText "Having troubles now... try later." None])).
    { unfold save_bookmark. first_call Hpost. reflexivity. }
    rewrite Hrun. split; reflexivity.
  - intros r w1 w2 bookmark_id Hpost H202 Hid Hne Hget.
    assert (Hrun : save_bookmark update url title labels token s
      = (Ret tt,
         {| USER_TOKEN_MAP := USER_TOKEN_MAP s;
            token_file := token_file s; world := w2 |},
         [RequestsPost (READECK_BASE_URL +:+ "/api/bookmarks")
            (bookmark_headers token) (bookmark_data url title labels);
          RequestsGet (READECK_BASE_URL +:+ "/api/bookmarks/" +:+ bookmark_id)
            (bookmark_headers token);
          ReplyText "Having troubles now... try later." None])).
    { unfold save_bookmark. first_call Hpost.
      rewrite H202. cbn [Z.eqb Pos.eqb]. rewrite Hid, Hne. cbn [negb].
      first_call Hget. reflexivity. }
    rewrite Hrun. split; reflexivity.
Qed.

(** X18. Without a stored token, or with one that Python takes for false,
    nothing goes to the backend.  A text message gets the one reply that
    asks for a token, with or without a URL in it, and so does a command
    that starts with [/md_]; any other command gets a reply too.  In each
    case the state is the one before and no request is made. *)
Theorem no_token_no_request (update : Update) (s : state) :
  truthy (default JNull
            (USER_TOKEN_MAP s !! str_of_int (effective_user_id update)))
  = false ->
  handle_message update s = (Ret tt, s, [ReplyText no_token_message None])
  /\ state_of (dynamic_md_handler update s) = s
  /\ List.filter is_backend_call (events_of (dynamic_md_handler update s)) = []
  /\ length (replies (events_of (dynamic_md_handler update s))) = 1
  /\ (if String.prefix "/md_" (strip (message_text update))
      then dynamic_md_handler update s
           = (Ret tt, s, [ReplyText no_token_message None])
      else True).
Proof.
  intros Htoken. split.
  - unfold handle_message, bind, PersistentDict_get. rewrite Htoken. reflexivity.
  - unfold dynamic_md_handler.
    destruct (String.prefix "/md_" (strip (message_text update)));
      [|repeat split; reflexivity].
    unfold bind, PersistentDict_get. rewrite Htoken. repeat split; reflexivity.
Qed.

(** X19. Setting tokens one after the other; [set k v st] is the state
    that [d[k] = v] leaves, whether its write returned or raised.  The
    table has the new item after each set.  A second token for the same
    key replaces the first: the table is then what setting the second
    alone gives, with its items in the same order.  For two different
    keys both tokens are in the table, and every key has the same value
    whichever of the two was set first; the items stand in the order in
    which their keys were first set, so the two orders need not write the
    same text.  When the second write returns, the file holds the table
    with both items. *)
Theorem setitem_twice (k1 k2 : string) (v1 v2 : json) (s : state) :
  let set k v st := state_of (PersistentDict_setitem k v st) in
  USER_TOKEN_MAP (set k1 v2 (set k1 v1 s)) = USER_TOKEN_MAP (set k1 v2 s)
  /\ USER_TOKEN_MAP (set k2 v2 (set k1 v1 s))
     = <[k2 := v2]> (<[k1 := v1]> (USER_TOKEN_MAP s))
  /\ USER_TOKEN_MAP (set k2 v2 (set k1 v1 s)) !! k2 = Some v2
  /\ (k1 <> k2 -> USER_TOKEN_MAP (set k2 v2 (set k1 v1 s)) !! k1 = Some v1)
  /\ (k1 <> k2 ->
      forall k, USER_TOKEN_MAP (set k2 v2 (set k1 v1 s)) !! k
                = USER_TOKEN_MAP (set k1 v1 (set k2 v2 s)) !! k)
  /\ (result_of (PersistentDict_setitem k2 v2 (set k1 v1 s)) = Ret tt ->
      file_synced (set k2 v2 (set k1 v1 s))).
Proof.
  intros set.
  assert (Hset : forall k v st,
            USER_TOKEN_MAP (set k v st) = <[k := v]> (USER_TOKEN_MAP st)).
  { intros k v st. apply (setitem_in_memory k v st). }
  rewrite !Hset. split; [|split; [|split; [|split; [|split]]]].
  - apply pydict_insert_insert_eq.
  - reflexivity.
  - apply pydict_lookup_insert_eq.
  - intros Hne. rewrite pydict_lookup_insert_ne by congruence.
    apply pydict_lookup_insert_eq.
  - intros Hne k.
    destruct (String.eqb_spec k2 k) as [<-|H2].
    + rewrite pydict_lookup_insert_eq.
      rewrite pydict_lookup_insert_ne by exact Hne.
      rewrite pydict_lookup_insert_eq. reflexivity.
    + rewrite pydict_lookup_insert_ne by exact H2.
      destruct (String.eqb_spec k1 k) as [<-|H1].
      * rewrite !pydict_lookup_insert_eq. reflexivity.
      * rewrite !pydict_lookup_insert_ne by assumption. reflexivity.
  - unfold set at 2. rewrite PersistentDict_setitem_run.
    destruct (write_text _ _); [|discriminate].
    intros _. reflexivity.
Qed.

End Bot.

(** ** The properties on sample surroundings *)

(** C1. The design document's contract for the local provisioning command
    is [readeck user [-config <path>] -u <username> -p <password>].  The
    expression of the code gives something else for every configuration:
    without a configured path the list is only [-u <username> -p
    <password>], with neither the executable nor [user]; with a path it
    stops after [-config <path>] and has neither [-u] nor [-p]. *)
Theorem command_drops_arguments :
  command None "alice" "s3cret" = ["-u"; "alice"; "-p"; "s3cret"]
  /\ spec_command None "alice" "s3cret"
     = ["readeck"; "user"; "-u"; "alice"; "-p"; "s3cret"]
  /\ command (Some "/etc/readeck.toml") "alice" "s3cret"
     = ["readeck"; "user"; "-config"; "/etc/readeck.toml"]
  /\ spec_command (Some "/etc/readeck.toml") "alice" "s3cret"
     = ["readeck"; "user"; "-config"; "/etc/readeck.toml";
        "-u"; "alice"; "-p"; "s3cret"]
  /\ (forall config username password,
         command config username password
         <> spec_command config username password).
Proof.
  repeat split; try reflexivity.
  intros [config|] username password; unfold command, spec_command.
  - destruct (is_empty config); cbn [negb app]; discriminate.
  - cbn [app]. discriminate.
Qed.

(** C2. The sample of the design document parses as it says.  A label that
    starts another one does not: in [http://x +a +ab] the labels are [a]
    and [ab], and dropping every [+a] from the text leaves the [b] of
    [+ab] behind, which becomes the title, where the design document
    strips the two tokens and has no title. *)
Theorem parse_overlapping_labels :
  extract_url_title_labels "https://x.com/a Title Here +news +tech"
  = (Some "https://x.com/a", Some "Title Here", ["news"; "tech"])
  /\ spec_parse "https://x.com/a Title Here +news +tech"
     = Some ("https://x.com/a", Some "Title Here", ["news"; "tech"])
  /\ extract_url_title_labels "http://x +a +ab"
     = (Some "http://x", Some "b", ["a"; "ab"])
  /\ spec_parse "http://x +a +ab" = Some ("http://x", None, ["a"; "ab"]).
Proof. repeat split; vm_compute; reflexivity. Qed.

(** C3. The docstring of [register_and_fetch_token] has the container
    tried when the local tool fails.  User 42 sends [/register] to a bot
    without a configured path, on a machine that has no local tool but
    could run the container, which would end with exit code 0.  The
    local command is [-u 42 -p 42], and [subprocess.run] raises for it.
    The handler ends with that exception after this one call: the
    container, whose command is [docker run
    codeberg.org/readeck/readeck:latest readeck user -u 42 -p 42], is not
    started, nothing is posted to [/api/auth], and the user gets no
    reply. *)
Theorem register_without_local_tool :
  let auth :=
    sample_post
      (sample_response 200 None (Some (JObj [("token", JStr "tok")]))
                       EmptyString) in
  let run :=
    register_command "http://localhost:8000" None sample_dumps unit
      (sample_process_missing 0 EmptyString) auth sample_write
      (sample_update "/register") [] sample_state in
  command None "42" "42" = ["-u"; "42"; "-p"; "42"]
  /\ docker_command "42" "42"
     = ["docker"; "run"; "codeberg.org/readeck/readeck:latest";
        "readeck"; "user"; "-u"; "42"; "-p"; "42"]
  /\ sample_process_missing 0 EmptyString (command None "42" "42") tt
     = (Raise OSError, tt)
  /\ sample_process_missing 0 EmptyString (docker_command "42" "42") tt
     = (Ret {| returncode := 0; stderr := EmptyString |}, tt)
  /\ run = (Raise OSError, sample_state,
            [SubprocessRun ["-u"; "42"; "-p"; "42"]])
  /\ ~ In (SubprocessRun (docker_command "42" "42")) (events_of run)
  /\ List.filter is_post (events_of run) = []
  /\ replies (events_of run) = [].
Proof.
  repeat split; try (vm_compute; reflexivity).
  intros Hin. vm_compute in Hin. destruct Hin as [Hin|[]]. discriminate.
Qed.

(** The other failure without an exit code: the local tool ends with 1
    and the container cannot be started.  The handler ends with the
    exception of the second call, and no [Registration failed:] reply is
    sent. *)
Example register_without_container :
  register_command "http://localhost:8000" None sample_dumps unit
    (sample_process_no_container 1 "no such user")
    (sample_post (sample_response 200 None None EmptyString)) sample_write
    (sample_update "/register") [] sample_state
  = (Raise OSError, sample_state,
     [SubprocessRun ["-u"; "42"; "-p"; "42"];
      SubprocessRun ["docker"; "run"; "codeberg.org/readeck/readeck:latest";
                     "readeck"; "user"; "-u"; "42"; "-p"; "42"]]).
Proof. vm_compute. reflexivity. Qed.

(** Both provisioning attempts end with exit code 1: the container is
    called after the local tool, and the reply carries its stderr. *)
Lemma register_fallback_sequence_witness :
  events_of
    (register_and_fetch_token "http://localhost:8000" None sample_dumps unit
       (sample_process 1 1 " boom ")
       (sample_post (sample_response 200 None None EmptyString))
       sample_write
       (sample_update "/register") "42" "42" sample_state)
  = [SubprocessRun ["-u"; "42"; "-p"; "42"];
     SubprocessRun (docker_command "42" "42");
     ReplyText "Registration failed: boom" None].
Proof.
  destruct (register_fallback_sequence "http://localhost:8000" None
              sample_dumps unit (sample_process 1 1 " boom ")
              (sample_post (sample_response 200 None None EmptyString))
              sample_write
              (sample_update "/register") "42" "42" sample_state
              {| returncode := 1; stderr := " boom " |} tt tt
              (Ret {| returncode := 1; stderr := " boom " |})
              eq_refl ltac:(discriminate) eq_refl)
    as (rest & Hevents & Hrest).
  cbn in Hrest. destruct Hrest as (Hrest & _).
  rewrite Hevents, Hrest. reflexivity.
Defined.

(** The local tool fails, the container succeeds, and [/api/auth] answers
    200 with a token: the token of [alice] is stored under the requester's
    id 42. *)
Lemma token_exchange_result_witness :
  let run :=
    register_and_fetch_token "http://localhost:8000" None sample_dumps unit
      (sample_process 1 0 EmptyString)
      (sample_post
         (sample_response 200 None (Some (JObj [("token", JStr "tok")]))
                          EmptyString))
      sample_write
      (sample_update "/register alice s3cret") "alice" "s3cret" sample_state in
  USER_TOKEN_MAP (state_of run) !! "42" = Some (JStr "tok")
  /\ USER_TOKEN_MAP (state_of run) !! "alice" = None
  /\ replies (events_of run)
     = ["Registration successful! Your token has been saved."].
Proof.
  intros run.
  assert (Hprov :
    provisioned None unit (sample_process 1 0 EmptyString) "alice" "s3cret"
                (world sample_state) tt).
  { right. exists {| returncode := 1; stderr := EmptyString |}, tt,
                  {| returncode := 0; stderr := EmptyString |}.
    repeat split; (reflexivity || discriminate). }
  destruct (token_exchange_result "http://localhost:8000" None sample_dumps
              unit (sample_process 1 0 EmptyString)
              (sample_post
                 (sample_response 200 None
                    (Some (JObj [("token", JStr "tok")])) EmptyString))
              sample_write
              (sample_update "/register alice s3cret") "alice" "s3cret"
              sample_state tt tt
              (sample_response 200 None
                 (Some (JObj [("token", JStr "tok")])) EmptyString)
              [("token", JStr "tok")]
              Hprov eq_refl ltac:(cbn; lia) eq_refl)
    as (Htable & _ & _ & Hreplies).
  fold run in Htable, Hreplies. rewrite Htable.
  split; [|split].
  - reflexivity.
  - reflexivity.
  - exact Hreplies.
Defined.

(** C5. The handler has a reply for a 2xx answer of [/api/auth] that
    carries no token, and reaches it only when the body is a JSON object.
    Here the container has provisioned the user, and [/api/auth] answers
    200 with the JSON document [null], which has no token: [data.get]
    raises [AttributeError], the handler ends with it after the request,
    and the user gets no reply, where an answer without token is to get
    the reply [Registration succeeded but failed to retrieve token.]; the
    token table and the file are as before.  It is the same for the body
    [[]].  The object [{}] gets the reply. *)
Theorem token_exchange_null_body :
  let register body :=
    register_command "http://localhost:8000" None sample_dumps unit
      (sample_process 1 0 EmptyString)
      (sample_post (sample_response 200 None (Some body) EmptyString))
      sample_write (sample_update "/register") [] sample_state in
  register JNull
  = (Raise AttributeError, sample_state,
     [SubprocessRun ["-u"; "42"; "-p"; "42"];
      SubprocessRun ["docker"; "run"; "codeberg.org/readeck/readeck:latest";
                     "readeck"; "user"; "-u"; "42"; "-p"; "42"];
      RequestsPost "http://localhost:8000/api/auth"
        [("accept", "application/json"); ("content-type", "application/json")]
        (JObj [("application", JStr "telegram bot");
               ("username", JStr "42"); ("password", JStr "42")])])
  /\ replies (events_of (register JNull)) = []
  /\ result_of (register (JArr [])) = Raise AttributeError
  /\ replies (events_of (register (JArr []))) = []
  /\ result_of (register (JObj [])) = Ret tt
  /\ replies (events_of (register (JObj [])))
     = ["Registration succeeded but failed to retrieve token."].
Proof. repeat split; vm_compute; reflexivity. Qed.

(** A token stored for user 42 is read back by a process that starts from
    the written file. *)
Lemma set_then_get_witness :
  result_of
    (PersistentDict_get unit "42"
       (startup sample_loads unit
          (token_file
             (state_of
                (PersistentDict_setitem sample_dumps unit sample_write
                                        "42" (JStr "tok") sample_state)))
          tt))
  = Ret (JStr "tok").
Proof.
  refine (proj2 (proj2 (proj2 (proj2 (proj2
            (set_then_get sample_dumps sample_loads unit sample_write
               "42" (JStr "tok") sample_state tt tt [("42", JStr "tok")]
               eq_refl eq_refl _)))))).
  intros k. cbn [dict_get USER_TOKEN_MAP sample_state].
  unfold lookup, insert, pydict_lookup, pydict_insert, empty, pydict_empty.
  cbn [dict_items items_set items_lookup].
  destruct (String.eqb "42" k); reflexivity.
Defined.

(** A file that cannot be written.  [d[u] = c] raises, the table has the
    item all the same, and a process that starts from the file, which is
    still missing, does not have it. *)
Example setitem_unwritable_file :
  let after :=
    PersistentDict_setitem sample_dumps unit (sample_write_fails None)
                           "42" (JStr "tok") sample_state in
  result_of after = Raise OSError
  /\ result_of (PersistentDict_get unit "42" (state_of after)) = Ret (JStr "tok")
  /\ token_file (state_of after) = None
  /\ result_of
       (PersistentDict_get unit "42"
          (startup sample_loads unit (token_file (state_of after)) tt))
     = Ret JNull.
Proof. repeat split. Qed.

(** [/token tok] with a file that cannot be written: the handler ends
    with the exception of the write, the user gets no confirmation, and
    the table has the token. *)
Example token_command_unwritable_file :
  let run :=
    token_command sample_dumps unit (sample_write_fails None)
                  (sample_update "/token tok") ["tok"] sample_state in
  run = (Raise OSError,
         {| USER_TOKEN_MAP := <["42" := JStr "tok"]> ∅;
            token_file := None; world := tt |},
         [WriteText "{'42': 'tok'}"])
  /\ replies (events_of run) = [].
Proof. split; vm_compute; reflexivity. Qed.

(** The items of the table stand in the order in which their keys were
    first set, and are written in that order. *)
Example setitem_order_is_kept :
  let set k v st :=
    state_of (PersistentDict_setitem sample_dumps unit sample_write k v st) in
  token_file (set "b" (JStr "y") (set "a" (JStr "x") sample_state))
  = Some "{'a': 'x', 'b': 'y'}"
  /\ token_file (set "a" (JStr "x") (set "b" (JStr "y") sample_state))
     = Some "{'b': 'y', 'a': 'x'}"
  /\ token_file
       (set "a" (JStr "z") (set "b" (JStr "y") (set "a" (JStr "x") sample_state)))
     = Some "{'a': 'z', 'b': 'y'}".
Proof. repeat split; vm_compute; reflexivity. Qed.

(** An article of 9000 characters is sent in three messages. *)
Lemma article_chunks_witness :
  length
    (replies
       (events_of
          (fetch_article_markdown "http://localhost:8000" unit
             (sample_get
                (sample_response 200 None None (str_repeat "a" (9 * 1000))))
             (sample_update "/md_abc123") "abc123" (JStr "tok") sample_state)))
  = 3.
Proof.
  destruct (article_chunks "http://localhost:8000" unit
              (sample_get
                 (sample_response 200 None None (str_repeat "a" (9 * 1000))))
              (sample_update "/md_abc123") "abc123" (JStr "tok") sample_state
              (sample_response 200 None None (str_repeat "a" (9 * 1000))) tt
              eq_refl eq_refl)
    as (Hsent & _ & _ & _ & _ & Hcount & _).
  rewrite Hsent, Hcount. vm_compute. reflexivity.
Defined.

(** A 202 with [Bookmark-Id: 42], then a 500 for the details. *)
Lemma save_bookmark_details_unavailable_witness :
  replies
    (events_of
       (save_bookmark "http://localhost:8000" unit
          (sample_post (sample_response 202 (Some "42") None EmptyString))
          (sample_get (sample_response 500 None None EmptyString))
          (sample_update "https://x.com/a Title") "https://x.com/a"
          (Some "Title") [] (JStr "tok") sample_state))
  = ["Saved bookmark but failed to retrieve details."].
Proof.
  rewrite (proj1
             (save_bookmark_details_unavailable "http://localhost:8000" unit
                (sample_post (sample_response 202 (Some "42") None EmptyString))
                (sample_get (sample_response 500 None None EmptyString))
                (sample_update "https://x.com/a Title") "https://x.com/a"
                (Some "Title") [] (JStr "tok") sample_state
                (sample_response 202 (Some "42") None EmptyString)
                (sample_response 500 None None EmptyString) tt tt "42"
                eq_refl eq_refl eq_refl eq_refl eq_refl ltac:(discriminate))).
  reflexivity.
Defined.

(** C8 does not hold as the design document states it: after a 202 with
    [Bookmark-Id: 42] and a 500 for the details, the only reply is the
    fixed text, in which [md_42] does not occur. *)
Lemma details_unavailable_reply_lacks_command :
  let evs :=
    events_of
      (save_bookmark "http://localhost:8000" unit
         (sample_post (sample_response 202 (Some "42") None EmptyString))
         (sample_get (sample_response 500 None None EmptyString))
         (sample_update "https://x.com/a Title") "https://x.com/a"
         (Some "Title") [] (JStr "tok") sample_state) in
  replies evs = ["Saved bookmark but failed to retrieve details."]
  /\ ~ spec_details_unavailable "42" evs.
Proof.
  split; [vm_compute; reflexivity|].
  intros (body & Hin & Hcontains).
  vm_compute in Hin. destruct Hin as [<-|[]].
  vm_compute in Hcontains. discriminate.
Qed.

(** C9 does not hold as the design document states it: a user without a
    token who sends a text without URL is told to set a token, not that
    the text has no URL. *)
Lemma token_checked_before_parsing :
  let update := sample_update "hello" in
  let evs :=
    events_of
      (handle_message "http://localhost:8000" unit
         (sample_post (sample_response 202 (Some "42") None EmptyString))
         (sample_get (sample_response 500 None None EmptyString))
         update sample_state) in
  replies evs = [no_token_message]
  /\ spec_parse (strip (message_text update)) = None
  /\ ~ spec_parse_first update evs.
Proof.
  repeat split; try (vm_compute; reflexivity).
  intros Hspec. destruct (Hspec eq_refl) as [E|E]; vm_compute in E; discriminate.
Qed.

(** ** The samples of the design document *)

Example parse_without_url :
  extract_url_title_labels "no url here" = (None, None, [])
  /\ spec_parse "no url here" = None.
Proof. split; reflexivity. Qed.

Example parse_repeated_label :
  extract_url_title_labels "https://x.com +tag+tag"
  = (Some "https://x.com", None, ["tag"; "tag"]).
Proof. vm_compute. reflexivity. Qed.

(** The URL is dropped wherever it occurs again, also inside a longer
    one. *)
Example parse_repeated_url :
  extract_url_title_labels "http://a see http://ab"
  = (Some "http://a", Some "see b", []).
Proof. vm_compute. reflexivity. Qed.

(** A 202 with [Bookmark-Id: 42] and details with title [Foo] and href
    [https://x]: the confirmation names [Foo] and [/md_42]. *)
Example save_bookmark_confirmation :
  replies
    (events_of
       (save_bookmark "http://localhost:8000" unit
          (sample_post (sample_response 202 (Some "42") None EmptyString))
          (sample_get
             (sample_response 200 None
                (Some (JObj [("title", JStr "Foo"); ("href", JStr "https://x")]))
                EmptyString))
          (sample_update "https://x") "https://x" None [] (JStr "tok")
          sample_state))
  = ["Saved: [Foo](https://x)" +:+ nl +:+ nl +:+
     "Use `/md_42` to view the article's markdown."].
Proof. vm_compute. reflexivity. Qed.

(** A 202 without [Bookmark-Id]: the reply says so, and no details are
    looked up. *)
Example save_bookmark_missing_identifier :
  events_of
    (save_bookmark "http://localhost:8000" unit
       (sample_post (sample_response 202 None None EmptyString))
       (sample_get (sample_response 200 None None EmptyString))
       (sample_update "https://x") "https://x" None [] (JStr "tok")
       sample_state)
  = [RequestsPost "http://localhost:8000/api/bookmarks"
       [("Authorization", "Bearer tok"); ("accept", "application/json");
        ("content-type", "application/json")]
       (JObj [("url", JStr "https://x")]);
     ReplyText "Saved bookmark but missing Bookmark-Id header." None].
Proof. vm_compute. reflexivity. Qed.

(** [/md_abc123] from a user without token gets the reply that a text
    message gets. *)
Example dynamic_command_without_token :
  dynamic_md_handler "http://localhost:8000" unit
    (sample_get (sample_response 200 None None EmptyString))
    (sample_update "/md_abc123") sample_state
  = (Ret tt, sample_state, [ReplyText no_token_message None])
  /\ handle_message "http://localhost:8000" unit
       (sample_post (sample_response 202 (Some "42") None EmptyString))
       (sample_get (sample_response 200 None None EmptyString))
       (sample_update "https://x.com/a") sample_state
     = (Ret tt, sample_state, [ReplyText no_token_message None]).
Proof. split; vm_compute; reflexivity. Qed.

(** ** The further properties on sample surroundings *)

(** The URL of a text goes up to the next white space, punctuation
    included. *)
Lemma parsed_url_is_first_token_witness :
  exists before rest,
    "see https://x.com/a, ok" = before +:+ "https://x.com/a," +:+ rest
    /\ ends_or_starts_with is_space rest = true.
Proof.
  destruct (parsed_url_is_first_token "see https://x.com/a, ok"
              "https://x.com/a," eq_refl)
    as (before & rest & Hbody & _ & _ & Hrest & _).
  exists before, rest. split; assumption.
Defined.

Lemma parse_bare_url_witness :
  extract_url_title_labels ("https://" +:+ "x.com/a")
  = (Some ("https://" +:+ "x.com/a"), None, []).
Proof.
  apply (parse_bare_url "https://" "x.com/a");
    [right; reflexivity | reflexivity | reflexivity].
Defined.

(** The confirmation for the bookmark 42 names [/md_42]. *)
Lemma save_bookmark_confirms_command_witness :
  exists body,
    replies
      (events_of
         (save_bookmark "http://localhost:8000" unit
            (sample_post (sample_response 202 (Some "42") None EmptyString))
            (sample_get
               (sample_response 200 None
                  (Some (JObj [("title", JStr "Foo"); ("href", JStr "https://x")]))
                  EmptyString))
            (sample_update "https://x") "https://x" None [] (JStr "tok")
            sample_state))
    = [body]
    /\ str_contains "/md_42" body = true.
Proof.
  destruct (save_bookmark_confirms_command "http://localhost:8000" unit
              (sample_post (sample_response 202 (Some "42") None EmptyString))
              (sample_get
                 (sample_response 200 None
                    (Some (JObj [("title", JStr "Foo");
                                 ("href", JStr "https://x")]))
                    EmptyString))
              (sample_update "https://x") "https://x" None [] (JStr "tok")
              sample_state
              (sample_response 202 (Some "42") None EmptyString)
              (sample_response 200 None
                 (Some (JObj [("title", JStr "Foo"); ("href", JStr "https://x")]))
                 EmptyString)
              tt tt "42" [("title", JStr "Foo"); ("href", JStr "https://x")]
              eq_refl eq_refl eq_refl eq_refl eq_refl eq_refl eq_refl)
    as (body & Hevents & _ & Hcommand & _).
  exists body. split; [rewrite Hevents; reflexivity | exact Hcommand].
Defined.

(** [/md_abc123] from the user with the token [tok]. *)
Lemma follow_up_command_fetches_bookmark_witness :
  exists answers,
    events_of
      (dynamic_md_handler "http://localhost:8000" unit
         (sample_get (sample_response 404 None None EmptyString))
         (sample_update "/md_abc123") sample_state_with_token)
    = RequestsGet "http://localhost:8000/api/bookmarks/abc123/article.md"
        [("Authorization", "Bearer tok"); ("accept", "application/epub+zip")]
      :: map (fun body => ReplyText body None) answers.
Proof.
  apply (follow_up_command_fetches_bookmark "http://localhost:8000" unit
           (sample_get (sample_response 404 None None EmptyString))
           (sample_update "/md_abc123") sample_state_with_token
           "abc123" (JStr "tok"));
    reflexivity.
Defined.

(** [/token] from user 42 leaves the entry of user 7 alone. *)
Lemma other_users_untouched_witness :
  USER_TOKEN_MAP
    (state_of
       (handle "http://localhost:8000" None sample_dumps unit
          (sample_process 0 0 EmptyString)
          (sample_post (sample_response 200 None None EmptyString))
          (sample_get (sample_response 200 None None EmptyString))
          sample_write
          (Token ["tok"]) (sample_update "/token tok") sample_state))
    !! str_of_int 7
  = USER_TOKEN_MAP sample_state !! str_of_int 7.
Proof.
  apply (other_users_untouched "http://localhost:8000" None sample_dumps unit
           (sample_process 0 0 EmptyString)
           (sample_post (sample_response 200 None None EmptyString))
           (sample_get (sample_response 200 None None EmptyString))
           sample_write
           (Token ["tok"]) (sample_update "/token tok") sample_state 7).
  discriminate.
Defined.

(** [/token tok], then a message with a URL, a title and a label. *)
Lemma token_then_bookmark_witness :
  exists rest,
    events_of
      (handle_message "http://localhost:8000" unit
         (sample_post (sample_response 500 None None EmptyString))
         (sample_get (sample_response 500 None None EmptyString))
         (sample_update "https://x.com/a Title +news")
         (state_of
            (token_command sample_dumps unit sample_write
                           (sample_update "/token tok") ["tok"] sample_state)))
    = RequestsPost "http://localhost:8000/api/bookmarks"
        [("Authorization", "Bearer tok"); ("accept", "application/json");
         ("content-type", "application/json")]
        (JObj [("url", JStr "https://x.com/a"); ("title", JStr "Title");
               ("labels", JArr [JStr "news"])])
      :: rest.
Proof.
  apply (token_then_bookmark "http://localhost:8000" sample_dumps unit
           (sample_post (sample_response 500 None None EmptyString))
           (sample_get (sample_response 500 None None EmptyString))
           sample_write
           (sample_update "/token tok")
           (sample_update "https://x.com/a Title +news") "tok" sample_state
           "https://x.com/a");
    reflexivity.
Defined.

(** Details with status 200 and a body that is not JSON. *)
Lemma save_bookmark_unreadable_details_witness :
  let run :=
    save_bookmark "http://localhost:8000" unit
      (sample_post (sample_response 202 (Some "42") None EmptyString))
      (sample_get (sample_response 200 None None "<html>"))
      (sample_update "https://x") "https://x" None [] (JStr "tok")
      sample_state in
  result_of run = Raise JSONDecodeError /\ replies (events_of run) = [].
Proof.
  destruct (save_bookmark_unreadable_details "http://localhost:8000" unit
              (sample_post (sample_response 202 (Some "42") None EmptyString))
              (sample_get (sample_response 200 None None "<html>"))
              (sample_update "https://x") "https://x" None [] (JStr "tok")
              sample_state
              (sample_response 202 (Some "42") None EmptyString)
              (sample_response 200 None None "<html>") tt tt "42"
              eq_refl eq_refl eq_refl eq_refl eq_refl eq_refl I)
    as (Hresult & Hreplies & _).
  split; assumption.
Defined.

(** The local tool succeeds and [/api/auth] cannot be reached. *)
Lemma register_request_not_caught_witness :
  let run :=
    register_and_fetch_token "http://localhost:8000"
      (Some "/etc/readeck.toml") sample_dumps unit
      (sample_process 0 0 EmptyString) (sample_post_raises RequestException)
      sample_write
      (sample_update "/register") "42" "42" sample_state in
  result_of run = Raise RequestException /\ replies (events_of run) = [].
Proof.
  assert (Hprov :
    provisioned (Some "/etc/readeck.toml") unit
      (sample_process 0 0 EmptyString) "42" "42" (world sample_state) tt).
  { left. exists {| returncode := 0; stderr := EmptyString |}.
    split; reflexivity. }
  destruct (register_request_not_caught "http://localhost:8000"
              (Some "/etc/readeck.toml") sample_dumps unit
              (sample_process 0 0 EmptyString)
              (sample_post_raises RequestException)
              sample_write
              (sample_update "/register") "42" "42" sample_state tt tt
              RequestException Hprov eq_refl)
    as (Hresult & Hreplies & _).
  split; assumption.
Defined.

(** The backend cannot be reached when a bookmark is posted. *)
Lemma save_bookmark_network_failure_witness :
  replies
    (events_of
       (save_bookmark "http://localhost:8000" unit
          (sample_post_raises RequestException)
          (sample_get (sample_response 200 None None EmptyString))
          (sample_update "https://x") "https://x" None [] (JStr "tok")
          sample_state))
  = ["Having troubles now... try later."].
Proof.
  destruct (proj1
              (save_bookmark_network_failure "http://localhost:8000" unit
                 (sample_post_raises RequestException)
                 (sample_get (sample_response 200 None None EmptyString))
                 (sample_update "https://x") "https://x" None [] (JStr "tok")
                 sample_state)
              tt eq_refl)
    as (_ & Hevents).
  rewrite Hevents. reflexivity.
Defined.

(** A user without token sends a URL. *)
Lemma no_token_no_request_witness :
  handle_message "http://localhost:8000" unit
    (sample_post (sample_response 202 (Some "42") None EmptyString))
    (sample_get (sample_response 200 None None EmptyString))
    (sample_update "https://x.com/a") sample_state
  = (Ret tt, sample_state, [ReplyText no_token_message None]).
Proof.
  apply (no_token_no_request "http://localhost:8000" unit
           (sample_post (sample_response 202 (Some "42") None EmptyString))
           (sample_get (sample_response 200 None None EmptyString))
           (sample_update "https://x.com/a") sample_state).
  reflexivity.
Defined.
